(** * Subscription bot: payment lifecycle, approval engine and expiry sweeper

    A shallow embedding of the record store ([db.py]), the expiry sweeper
    ([scheduler.py]), the approval handlers ([admin_handlers.py]) and the
    receipt-submission handler ([user_handlers.py]).

    The SQLite table [subscribers] is a finite map from the primary key
    [user_id] to the remaining columns.  The Telegram transport, the SQLite
    engine's failures are the environment: every call into them consumes the
    next answer of an oracle carried by the world, and every outgoing call is
    appended to a trace.  The day ([date.today()], SQLite's [date('now')]) is
    a parameter of the operation that reads it. *)

From Stdlib Require Import ZArith Lia Ascii String.
From stdpp Require Import gmap strings list fin_maps sorting.

Open Scope Z_scope.

(** ** Strings: the fragment of [str] the code uses *)

Definition ascii_lower (c : ascii) : ascii :=
  let n := N_of_ascii c in
  if ((65 <=? n) && (n <=? 90))%N then ascii_of_N (n + 32) else c.

(** [s.lower()] on ASCII text. *)
Fixpoint lower (s : string) : string :=
  match s with
  | EmptyString => EmptyString
  | String c s' => String (ascii_lower c) (lower s')
  end.

(** [needle in hay]. *)
Fixpoint str_in (needle hay : string) : bool :=
  String.prefix needle hay ||
  match hay with
  | EmptyString => false
  | String _ hay' => str_in needle hay'
  end.

(** ** Exceptions and results *)

Inductive exn :=
  | TelegramRetryAfter (retry_after : Z)
  | TelegramAPIError (message : string)
  | OverflowError
  | AttributeError
  | OtherException.

Inductive result (A : Type) :=
  | Ok (a : A)
  | Raise (e : exn).
Arguments Ok {A} a.
Arguments Raise {A} e.

(** ** Dates

    A [datetime.date] is its proleptic Gregorian ordinal ([date.toordinal()]),
    so [date.min] is 1 and [date.max] (9999-12-31) is 3652059.  The table
    stores dates as ISO text ([_date_to_str]); on four-digit zero-padded years
    the text order, the order of SQLite's [date()] and the order of the
    ordinals are the same order. *)

Definition date := Z.
Definition date_min : date := 1.
Definition date_max : date := 3652059.
Definition timedelta_max_days : Z := 999999999.

(** [d + timedelta(days=n)]: [OverflowError] when the delta or the sum is out
    of range. *)
Definition date_add (d : date) (n : Z) : result date :=
  if (Z.abs n <=? timedelta_max_days) && (date_min <=? d + n) && (d + n <=? date_max)
  then Ok (d + n) else Raise OverflowError.

(** ** The table, the messages and the world *)

Record Row := mkRow {
  username : option string;
  start_date : option date;
  end_date : option date;
  status : string;
  subscription_type : option string
}.

Definition set_status (s : string) (r : Row) : Row :=
  mkRow (username r) (start_date r) (end_date r) s (subscription_type r).

Definition set_dates (sd ed : option date) (ty : string) (r : Row) : Row :=
  mkRow (username r) sd ed (status r) (Some ty).

(** A row as the store hands it out ([_row_to_dict]): key and columns. *)
Definition Subscriber : Type := Z * Row.

Inductive Action := approve | decline.

(** Texts of [bot.send_message] / [message.answer] / [bot.send_photo]. *)
Inductive Notice :=
  | SubscriptionExpired
  | PaymentApproved
  | PaymentNotVerified
  | AdminConfirmation (action : Action) (target : Z)
  | ReceiptReceived
  | ErrorProcessingReceipt
  | NewPaymentRequest (user : Z).

(** Texts of [callback_query.answer]. *)
Inductive Toast :=
  | UserNotFound
  | FailedToUpdateStatus
  | ApprovedAndNotified
  | DeclinedAndNotified
  | ErrorProcessing (action : Action).

Inductive Event :=
  | SendMessage (chat_id : Z) (text : Notice) (outcome : option exn)
  | AnswerCallback (caller : Z) (text : Toast) (show_alert : bool) (outcome : option exn)
  | EditText (action : Action) (target : Z) (outcome : option exn)
  | Sleep (seconds : Z)
  | ClearState (user : Z).

Record World := mkWorld {
  subscribers : gmap Z Row;
  (** one flag per [_get_connection]: [true] when the block raises
      [sqlite3.Error]; an exhausted list means a healthy database *)
  sqlite_faults : list bool;
  (** one answer per transport call: [None] for success *)
  transport : list (option exn);
  trace : list Event
}.

Definition with_subscribers (m : gmap Z Row) (w : World) : World :=
  mkWorld m (sqlite_faults w) (transport w) (trace w).
Definition with_faults (f : list bool) (w : World) : World :=
  mkWorld (subscribers w) f (transport w) (trace w).
Definition with_transport (t : list (option exn)) (w : World) : World :=
  mkWorld (subscribers w) (sqlite_faults w) t (trace w).
Definition log (e : Event) (w : World) : World :=
  mkWorld (subscribers w) (sqlite_faults w) (transport w) (trace w ++ [e]).

(** ** The monad of handlers: state and exceptions *)

Definition M (A : Type) : Type := World → result A * World.

Definition ret {A} (a : A) : M A := λ w, (Ok a, w).
Definition bind {A B} (m : M A) (k : A → M B) : M B := λ w,
  match m w with
  | (Ok a, w') => k a w'
  | (Raise e, w') => (Raise e, w')
  end.
(** [try: m except Exception as e: h e] *)
Definition try_except {A} (m : M A) (h : exn → M A) : M A := λ w,
  match m w with
  | (Ok a, w') => (Ok a, w')
  | (Raise e, w') => h e w'
  end.
(** Run [m] and reify its outcome, for handlers that inspect the exception. *)
Definition catch {A} (m : M A) : M (result A) := λ w,
  let '(r, w') := m w in (Ok r, w').
Definition lift {A} (r : result A) : M A := λ w, (r, w).

Declare Scope py_scope.
Delimit Scope py_scope with py.
Notation "x <- m ;; k" := (bind m (λ x, k))
  (at level 100, m at next level, right associativity) : py_scope.
Notation "m ;; k" := (bind m (λ _, k))
  (at level 100, right associativity) : py_scope.
Open Scope py_scope.

(** One call into the Telegram transport: consume the next answer, record the
    call together with its outcome. *)
Definition telegram (call : option exn → Event) : M unit := λ w,
  match transport w with
  | [] => (Ok (), log (call None) w)
  | None :: rest => (Ok (), log (call None) (with_transport rest w))
  | Some e :: rest => (Raise e, log (call (Some e)) (with_transport rest w))
  end.

Definition send_message (chat_id : Z) (text : Notice) : M unit :=
  telegram (SendMessage chat_id text).
Definition answer (caller : Z) (text : Toast) (show_alert : bool) : M unit :=
  telegram (AnswerCallback caller text show_alert).
Definition edit_text (action : Action) (target : Z) : M unit :=
  telegram (EditText action target).
(** [asyncio.sleep] *)
Definition sleep (seconds : Z) : M unit := λ w, (Ok (), log (Sleep seconds) w).

(** ** db.py

    A key of the table is an SQLite INTEGER.  For a [user_id] outside the
    signed 64-bit range the driver raises [OverflowError] while it binds the
    parameter, an exception the store does not catch; the operations below
    describe the store on keys in that range, and the properties about keys
    that are not in the table assume it ([sqlite_integer]). *)

Module db.

Definition _ALLOWED_STATUSES : list string := ["active"; "pending"; "expired"].
Definition _ALLOWED_SUBSCRIPTION_TYPES : list string := ["monthly"; "lifetime"].

(** [x in S] for a set of strings. *)
Definition member (x : string) (S : list string) : bool := bool_decide (x ∈ S).

(** Entering [with _get_connection() as conn]: does this block raise
    [sqlite3.Error]?  When it does, the context manager rolls back, so the
    table is as before. *)
Definition _get_connection : M bool := λ w,
  match sqlite_faults w with
  | [] => (Ok false, w)
  | b :: rest => (Ok b, with_faults rest w)
  end.

Definition get_subscriber (user_id : Z) : M (option Subscriber) :=
  failed <- _get_connection;;
  if failed : bool then ret None
  else λ w, (Ok (pair user_id <$> subscribers w !! user_id), w).

Definition update_subscriber_status (user_id : Z) (status : string) : M bool :=
  if negb (member status _ALLOWED_STATUSES) then ret false
  else
    failed <- _get_connection;;
    if failed : bool then ret false
    else λ w,
      match subscribers w !! user_id with
      | Some r => (Ok true, with_subscribers (<[user_id := set_status status r]> (subscribers w)) w)
      | None => (Ok false, w)
      end.

(** [subscription_type] is whatever the caller passes; [None] is Python's
    [None], which is not in the allowed set. *)
Definition update_subscription_dates (user_id : Z) (start_date end_date : option date)
    (subscription_type : option string) : M bool :=
  match subscription_type with
  | None => ret false
  | Some ty =>
    if negb (member ty _ALLOWED_SUBSCRIPTION_TYPES) then ret false
    else
      failed <- _get_connection;;
      if failed : bool then ret false
      else λ w,
        match subscribers w !! user_id with
        | Some r => (Ok true, with_subscribers (<[user_id := set_dates start_date end_date ty r]> (subscribers w)) w)
        | None => (Ok false, w)
        end
  end.

(** [ORDER BY end_date ASC]: SQLite puts NULL first. *)
Definition end_date_le (a b : Subscriber) : Prop :=
  match end_date a.2, end_date b.2 with
  | None, _ => True
  | Some _, None => False
  | Some x, Some y => x ≤ y
  end.

#[global] Instance end_date_le_dec a b : Decision (end_date_le a b).
Proof. unfold end_date_le. destruct (end_date a.2), (end_date b.2); apply _. Defined.

(** The [WHERE] clause; [today] is SQLite's [date('now')]. *)
Definition is_expired (today : date) (s : Subscriber) : bool :=
  String.eqb (status s.2) "active" &&
  match end_date s.2 with
  | None => false
  | Some e => e <? today
  end.

Definition list_expired_subscriptions (today : date) : M (list Subscriber) :=
  failed <- _get_connection;;
  if failed : bool then ret []
  else λ w,
    (Ok (merge_sort end_date_le
           (filter (λ s, is_expired today s) (map_to_list (subscribers w)))), w).

(** [INSERT INTO subscribers ... VALUES (?, ?, NULL, NULL, 'pending', NULL)]:
    an existing key raises [sqlite3.IntegrityError], which is answered with
    False like any other [sqlite3.Error]. *)
Definition create_subscriber (user_id : Z) (username : string) : M bool :=
  failed <- _get_connection;;
  if failed : bool then ret false
  else λ w,
    match subscribers w !! user_id with
    | Some _ => (Ok false, w)
    | None =>
      (Ok true,
       with_subscribers (<[user_id := mkRow (Some username) None None "pending" None]>
                           (subscribers w)) w)
    end.

(** [DELETE FROM subscribers WHERE user_id = ?], [rowcount > 0]. *)
Definition delete_subscriber (user_id : Z) : M bool :=
  failed <- _get_connection;;
  if failed : bool then ret false
  else λ w,
    match subscribers w !! user_id with
    | Some _ => (Ok true, with_subscribers (delete user_id (subscribers w)) w)
    | None => (Ok false, w)
    end.

(** [s[n:]] *)
Fixpoint string_drop (n : nat) (s : string) : string :=
  match n, s with
  | O, _ => s
  | S n', String _ s' => string_drop n' s'
  | S _, EmptyString => EmptyString
  end.

Definition _normalize_sqlite_uri (uri : string) : string :=
  if String.prefix "sqlite:///" uri
  then string_drop (String.length "sqlite:///") uri
  else uri.

End db.

(** ** scheduler.py *)

Module scheduler.

(** The test on [str(e)] that classifies a [TelegramAPIError] as permanent. *)
Definition is_permanent (msg : string) : bool :=
  str_in "blocked" (lower msg) || str_in "user not found" (lower msg) ||
  str_in "chat not found" (lower msg).

(** The body of [for attempt in range(retries)], with [todo] iterations left:
    the loop variable is [retries - todo]. *)
Fixpoint notify_attempts (user_id : Z) (retries todo : nat) : M bool :=
  match todo with
  | O => ret false
  | S todo' =>
    let attempt : Z := Z.of_nat (retries - todo) in
    r <- catch (send_message user_id SubscriptionExpired);;
    match r with
    | Ok _ => ret true
    | Raise (TelegramRetryAfter wait_time) =>
      sleep wait_time;;
      notify_attempts user_id retries todo'
    | Raise (TelegramAPIError msg) =>
      if is_permanent msg then ret false
      else
        (if attempt <? Z.of_nat retries - 1 then sleep (2 * (attempt + 1)) else ret ());;
        notify_attempts user_id retries todo'
    | Raise _ => ret false
    end
  end.

Definition notify_user (user_id : Z) (retries : nat) : M bool :=
  notify_attempts user_id retries retries.

(** The body of [for sub in expired_subs]. *)
Fixpoint process (expired_subs : list Subscriber) : M unit :=
  match expired_subs with
  | [] => ret ()
  | sub :: rest =>
    sent <- notify_user sub.1 3;;
    updated <- db.update_subscriber_status sub.1 "expired";;
    process rest
  end.

Definition check_expired_subscriptions (today : date) : M unit :=
  expired_subs <- db.list_expired_subscriptions today;;
  process expired_subs.

(** The schedule of [scheduler_loop].  A naive [datetime] is its date and the
    microseconds since midnight, in [0, 86400000000). *)
Definition datetime : Type := date * Z.
Definition microseconds_per_day : Z := 86400 * 1000000.
(** [time(12, 0)] *)
Definition target_time : Z := 12 * 3600 * 1000000.

(** [next_run], from [now = datetime.now()]: [OverflowError] when tomorrow is
    past [date.max]. *)
Definition next_run (now : datetime) : result datetime :=
  let today_target : datetime := (now.1, target_time) in
  if target_time <=? now.2
  then match date_add now.1 1 with
       | Ok tomorrow => Ok (tomorrow, target_time)
       | Raise e => Raise e
       end
  else Ok today_target.

(** [next_run - now], in microseconds ([sleep_seconds] is this count divided
    by [10 ** 6]). *)
Definition sleep_microseconds (now : datetime) : result Z :=
  match next_run now with
  | Ok next => Ok ((next.1 - now.1) * microseconds_per_day + (next.2 - now.2))
  | Raise e => Raise e
  end.

End scheduler.

(** ** admin_handlers.py and user_handlers.py *)

(** [s.title()] on a column that may be NULL: only whether it raises matters
    to the control flow. *)
Definition title (s : option string) : result unit :=
  match s with
  | None => Raise AttributeError
  | Some _ => Ok ()
  end.

Section handlers.

(** [config.ADMIN_ID] and [config.MONTHLY_DAYS] *)
Context (ADMIN_ID MONTHLY_DAYS : Z).

(** [AdminFilter.__call__]: the values of [is_admin] and [user_id] in the dict
    it returns.  No handler of [admin_router] is registered with it. *)
Definition AdminFilter (from_user : Z) : bool * Z :=
  (from_user =? ADMIN_ID, from_user).

Definition send_user_subscription_confirmation (user_id : Z) : M bool :=
  try_except (send_message user_id PaymentApproved;; ret true) (λ _, ret false).

Definition send_user_payment_declined (user_id : Z) : M bool :=
  try_except (send_message user_id PaymentNotVerified;; ret true) (λ _, ret false).

Definition send_admin_confirmation (action : Action) (user_data : Subscriber) : M bool :=
  try_except
    (lift (title (subscription_type user_data.2));;
     send_message ADMIN_ID (AdminConfirmation action user_data.1);;
     ret true)
    (λ _, ret false).

(** [caller] is [callback_query.from_user.id]; [today] is what [date.today()]
    returns during the call. *)
Definition handle_admin_action (caller : Z) (action : Action) (target_user_id : Z)
    (today : date) : M unit :=
  user_data <- db.get_subscriber target_user_id;;
  match user_data with
  | None => answer caller UserNotFound true
  | Some user_data =>
    try_except
      (match action with
       | approve =>
         success <- db.update_subscriber_status target_user_id "active";;
         if negb success then answer caller FailedToUpdateStatus true
         else
           let subscription_type := subscription_type user_data.2 in
           let start_date := today in
           end_date <- lift (if bool_decide (subscription_type = Some "lifetime")
                             then date_add start_date (365 * 10)
                             else date_add start_date MONTHLY_DAYS);;
           db.update_subscription_dates target_user_id (Some start_date) (Some end_date)
             subscription_type;;
           send_user_subscription_confirmation target_user_id;;
           send_admin_confirmation approve user_data;;
           lift (title subscription_type);;
           edit_text approve target_user_id;;
           answer caller ApprovedAndNotified false
       | decline =>
         success <- db.update_subscriber_status target_user_id "expired";;
         if negb success then answer caller FailedToUpdateStatus true
         else
           send_user_payment_declined target_user_id;;
           send_admin_confirmation decline user_data;;
           lift (title (subscription_type user_data.2));;
           edit_text decline target_user_id;;
           answer caller DeclinedAndNotified false
       end)
      (λ _, answer caller (ErrorProcessing action) true)
  end.

Definition send_admin_payment_notification (user_id : Z) : M bool :=
  try_except (send_message ADMIN_ID (NewPaymentRequest user_id);; ret true) (λ _, ret false).

(** [state.clear()] *)
Definition clear_state (user_id : Z) : M unit := λ w, (Ok (), log (ClearState user_id) w).

(** [tariff] is [payment_data.get("tariff")], [None] when the key is absent;
    [today] is what [date.today()] returns during the call. *)
Definition handle_receipt_photo (user_id : Z) (tariff : option string) (today : date) : M unit :=
  try_except
    (success <- db.update_subscriber_status user_id "pending";;
     end_date <- (if bool_decide (tariff = Some "monthly")
                  then d <- lift (date_add today MONTHLY_DAYS);; ret (Some d)
                  else ret None);;
     db.update_subscription_dates user_id (Some today) end_date (Some (default "monthly" tariff));;
     clear_state user_id;;
     send_message user_id ReceiptReceived;;
     send_admin_payment_notification user_id;;
     ret ())
    (λ _, send_message user_id ErrorProcessingReceipt).

End handlers.

(** ** user_handlers.py: the commands *)

(** The lines of the status message, in the order of [message_parts]. *)
Inductive Part :=
  | Header
  | UserLine (username : option string) (user_id : Z)
  | StatusLine (status : string)
  | TypeLine (subscription_type : string)
  | DurationLifetime
  | StartLine (d : date)
  | EndLine (d : date)
  | DaysRemaining (days : Z)
  | SubscriptionExpiredWarning
  | ActiveLine
  | JoinChannelLink
  | PendingLine
  | WaitForAdminLine
  | ExpiredLine
  | RenewLine.

Inductive StatusMessage :=
  | NoSubscription
  | Parts (message_parts : list Part).

(** [today] is what [date.today()] returns.  The dates of a row are [date]
    objects, which are truthy and subtract without error. *)
Definition format_subscription_message (subscriber_data : option Subscriber) (today : date)
    : result StatusMessage :=
  match subscriber_data with
  | None => Ok NoSubscription
  | Some (user_id, r) =>
    match subscription_type r with
    | None => Raise AttributeError
    | Some subscription_type =>
      let message_parts :=
        [Header; UserLine (username r) user_id; StatusLine (status r);
         TypeLine subscription_type] in
      let '(message_parts, status) :=
        if bool_decide (subscription_type = "lifetime")
        then (message_parts ++ [DurationLifetime], status r)
        else
          let message_parts :=
            match start_date r with
            | Some d => message_parts ++ [StartLine d]
            | None => message_parts
            end in
          match end_date r with
          | Some e =>
            let message_parts := message_parts ++ [EndLine e] in
            let days_remaining := e - today in
            if 0 <? days_remaining
            then (message_parts ++ [DaysRemaining days_remaining], status r)
            else (message_parts ++ [SubscriptionExpiredWarning], "expired")
          | None => (message_parts, status r)
          end in
      Ok (Parts
            (if bool_decide (status = "active")
             then message_parts ++ [ActiveLine; JoinChannelLink]
             else if bool_decide (status = "pending")
             then message_parts ++ [PendingLine; WaitForAdminLine]
             else if bool_decide (status = "expired")
             then message_parts ++ [ExpiredLine; RenewLine]
             else message_parts))
    end
  end.

(** The button under the status message. *)
Inductive Keyboard := BuyAccessButton | RefreshStatusButton | MainKeyboard | NoKeyboard.

(** Texts of [message.answer] in the command handlers. *)
Inductive Reply :=
  | Welcome
  | Status (text : StatusMessage)
  | InvalidFileType.

(** A conversation: the world, and the replies of the command handlers with
    their keyboards and the transport's answers. *)
Record Chat := mkChat {
  backend : World;
  outbox : list (Z * Reply * Keyboard * option exn)
}.

Definition U (A : Type) : Type := Chat → result A * Chat.

Definition uret {A} (a : A) : U A := λ c, (Ok a, c).
Definition ubind {A B} (m : U A) (k : A → U B) : U B := λ c,
  match m c with
  | (Ok a, c') => k a c'
  | (Raise e, c') => (Raise e, c')
  end.
(** A store or transport operation of the world, run inside a conversation. *)
Definition on_backend {A} (m : M A) : U A := λ c,
  let '(r, w) := m (backend c) in (r, mkChat w (outbox c)).

Notation "x <~ m ;; k" := (ubind m (λ x, k))
  (at level 100, m at next level, right associativity) : py_scope.

(** [message.answer(text, reply_markup=kb)]: one transport call. *)
Definition reply (chat_id : Z) (text : Reply) (kb : Keyboard) : U unit := λ c,
  match transport (backend c) with
  | [] => (Ok (), mkChat (backend c) (outbox c ++ [(chat_id, text, kb, None)]))
  | None :: rest =>
    (Ok (), mkChat (with_transport rest (backend c)) (outbox c ++ [(chat_id, text, kb, None)]))
  | Some e :: rest =>
    (Raise e,
     mkChat (with_transport rest (backend c)) (outbox c ++ [(chat_id, text, kb, Some e)]))
  end.

(** [x or "Unknown"] *)
Definition or_unknown (x : option string) : string :=
  match x with
  | Some (String c s) => String c s
  | _ => "Unknown"
  end.

Section commands.

Context (ADMIN_ID MONTHLY_DAYS : Z).

(** [from_username] is [message.from_user.username]. *)
Definition cmd_start (user_id : Z) (from_username : option string) : U unit :=
  let username := or_unknown from_username in
  subscriber <~ on_backend (db.get_subscriber user_id);;
  _ <~ (if subscriber is None
        then on_backend (db.create_subscriber user_id username)
        else uret true);;
  _ <~ on_backend (clear_state user_id);;
  reply user_id Welcome MainKeyboard.

Definition cmd_mysubscription (user_id : Z) (today : date) : U unit :=
  subscriber_data <~ on_backend (db.get_subscriber user_id);;
  status_message <~ on_backend (lift (format_subscription_message subscriber_data today));;
  let kb :=
    match subscriber_data with
    | None => BuyAccessButton
    | Some (_, r) =>
      if bool_decide (status r ∈ ["pending"; "expired"])
      then BuyAccessButton else RefreshStatusButton
    end in
  reply user_id (Status status_message) kb.

(** [mime_type] is [message.document.mime_type]; [tariff] and [today] as for
    the photo. *)
Definition handle_receipt_document (user_id : Z) (mime_type : option string)
    (tariff : option string) (today : date) : U unit :=
  if match mime_type with
     | Some (String c m) => String.prefix "image/" (String c m)
     | _ => false
     end
  then
    on_backend
      (success <- db.update_subscriber_status user_id "pending";;
       end_date <- (if bool_decide (tariff = Some "monthly")
                    then d <- lift (date_add today MONTHLY_DAYS);; ret (Some d)
                    else ret None);;
       db.update_subscription_dates user_id (Some today) end_date
         (Some (default "monthly" tariff));;
       clear_state user_id;;
       send_message user_id ReceiptReceived;;
       send_admin_payment_notification ADMIN_ID user_id;;
       ret ())
  else reply user_id InvalidFileType NoKeyboard.

End commands.

(** * Vocabulary of the properties *)

(** The database is healthy when no pending connection raises. *)
Definition healthy (w : World) : Prop := Forall (λ b, b = false) (sqlite_faults w).

(** The rows the query selects from a table, before ordering. *)
Definition selected (today : date) (m : gmap Z Row) : list Subscriber :=
  filter (λ s, db.is_expired today s) (map_to_list m).

(** The table after the status of every listed key has been set to expired. *)
Definition expire_all (keys : list Z) (m : gmap Z Row) : gmap Z Row :=
  foldl (λ m u, alter (set_status "expired") u m) m keys.

(** Number of [bot.send_message] calls in a trace. *)
Definition is_send (e : Event) : bool :=
  match e with
  | SendMessage _ _ _ => true
  | _ => false
  end.
Definition sends (tr : list Event) : nat := length (List.filter is_send tr).

(** A computation that only talks to the transport: it leaves the table and
    the database as they are. *)
Definition transport_only {A} (m : M A) : Prop :=
  ∀ w, subscribers (m w).2 = subscribers w ∧ sqlite_faults (m w).2 = sqlite_faults w.

(** The number of days the approve branch adds for a plan. *)
Definition approval_days (MONTHLY_DAYS : Z) (ty : string) : Z :=
  if bool_decide (ty = "lifetime") then 365 * 10 else MONTHLY_DAYS.

(** [d + timedelta(days=n)] does not raise. *)
Definition no_overflow (d : date) (n : Z) : Prop := date_add d n = Ok (d + n).

(** The two date columns of a user's row. *)
Definition dates_of (w : World) (user : Z) : option (option date * option date) :=
  (λ r, (start_date r, end_date r)) <$> subscribers w !! user.

(** The row [create_subscriber] inserts. *)
Definition fresh_row (username : string) : Row :=
  mkRow (Some username) None None "pending" None.

(** Two rows that differ at most in their status. *)
Definition same_but_status (r r' : Row) : Prop :=
  username r' = username r ∧ start_date r' = start_date r ∧
  end_date r' = end_date r ∧ subscription_type r' = subscription_type r.

(** A computation that reads and writes no row but the one of [user]. *)
Definition touches_only (user : Z) {A} (m : M A) : Prop :=
  ∀ w v, v ≠ user → subscribers (m w).2 !! v = subscribers w !! v.

(** A computation that never raises and leaves the transport and the trace
    alone. *)
Definition store_only {A} (m : M A) : Prop :=
  ∀ w, (∃ a, (m w).1 = Ok a) ∧ transport (m w).2 = transport w ∧ trace (m w).2 = trace w.

(** A send that the transport delivered. *)
Definition delivered (e : Event) : bool :=
  match e with
  | SendMessage _ _ None => true
  | _ => false
  end.

(** A key the SQLite driver accepts: a signed 64-bit integer, as every
    Telegram identifier is. *)
Definition sqlite_integer (n : Z) : Prop := - 2 ^ 63 ≤ n < 2 ^ 63.

(** Text of ASCII characters only: on it [lower] is Python's [str.lower] and
    [str_in] is Python's [in]. *)
Fixpoint ascii_only (s : string) : bool :=
  match s with
  | EmptyString => true
  | String c s' => (N_of_ascii c <? 128)%N && ascii_only s'
  end.

(** A computation that only adds events to the trace. *)
Definition extends_trace {A} (m : M A) : Prop :=
  ∀ w, ∃ evs, trace (m w).2 = trace w ++ evs.

(** Sample tables. *)
Definition row_monthly : Row := mkRow (Some "bob") (Some 100) (Some 130) "pending" (Some "monthly").
Definition row_lifetime : Row := mkRow (Some "al") (Some 100) None "pending" (Some "lifetime").
Definition row_due (e : date) : Row := mkRow None (Some 1) (Some e) "active" (Some "monthly").

Definition pending_world : World :=
  mkWorld (<[42 := row_monthly]> (<[7 := row_lifetime]> ∅)) [] [] [].
Definition due_world : World :=
  mkWorld (<[7 := row_due 99]> (<[8 := row_due 40]> (<[9 := row_due 140]> ∅))) [] [] [].

(** User 5 has just sent /start: a record without a plan. *)
Definition started_world : World :=
  mkWorld (<[5 := fresh_row "eve"]> (subscribers pending_world)) [] [] [].
(** Three transient failures, then a delivery. *)
Definition flaky_world : World :=
  with_transport [Some (TelegramAPIError "Bad Gateway"); Some (TelegramAPIError "Bad Gateway");
                  Some (TelegramAPIError "Bad Gateway"); None] due_world.

(** Scenario E: the transport answers that the user blocked the bot. *)
Definition blocked_world : World :=
  with_transport [Some (TelegramAPIError "Forbidden: bot was blocked by the user")] due_world.
(** The transport rate-limits three sends and would deliver the fourth. *)
Definition flooded_world : World :=
  with_transport [Some (TelegramRetryAfter 5); Some (TelegramRetryAfter 5);
                  Some (TelegramRetryAfter 5); None] due_world.

(** * Properties *)

(** ** Running the store *)

Lemma get_connection_eq w :
  db._get_connection w =
  (Ok (default false (head (sqlite_faults w))), with_faults (tail (sqlite_faults w)) w).
Proof. destruct w as [m [|b f] t tr]; reflexivity. Qed.

Lemma healthy_head w : healthy w → default false (head (sqlite_faults w)) = false.
Proof. unfold healthy. destruct 1; simpl; auto. Qed.

Lemma healthy_tail w : healthy w → healthy (with_faults (tail (sqlite_faults w)) w).
Proof. unfold healthy. destruct 1; simpl; auto. Qed.

Lemma member_statuses s :
  db.member s db._ALLOWED_STATUSES = true ↔ s = "active" ∨ s = "pending" ∨ s = "expired".
Proof.
  unfold db.member, db._ALLOWED_STATUSES. rewrite bool_decide_eq_true.
  rewrite !elem_of_cons, elem_of_nil. tauto.
Qed.

(** On a connection that does not raise, the status update is an [alter] of
    the table: a missing key leaves it as it is. *)
Lemma update_subscriber_status_run user_id s w :
  db.member s db._ALLOWED_STATUSES = true →
  default false (head (sqlite_faults w)) = false →
  db.update_subscriber_status user_id s w =
  (Ok (bool_decide (is_Some (subscribers w !! user_id))),
   with_subscribers (alter (set_status s) user_id (subscribers w))
     (with_faults (tail (sqlite_faults w)) w)).
Proof.
  intros Hs Hc. unfold db.update_subscriber_status, bind. rewrite Hs. simpl.
  rewrite get_connection_eq, Hc. simpl.
  destruct (subscribers w !! user_id) as [r|] eqn:E.
  - rewrite bool_decide_eq_true_2 by eauto. do 2 f_equal.
    apply map_eq. intros k. destruct (decide (user_id = k)) as [->|Hne].
    + rewrite lookup_insert_eq, lookup_alter_eq, E. reflexivity.
    + rewrite lookup_insert_ne, lookup_alter_ne by done. reflexivity.
  - rewrite bool_decide_eq_false_2 by (intros [? ?]; discriminate). f_equal.
    destruct w as [m f t tr]. unfold with_subscribers, with_faults. simpl in *.
    f_equal. apply map_eq. intros k. destruct (decide (user_id = k)) as [->|Hne].
    + rewrite lookup_alter_eq, E. reflexivity.
    + rewrite lookup_alter_ne by done. reflexivity.
Qed.

(** ** The query of the sweeper *)

#[local] Instance end_date_le_trans : Transitive db.end_date_le.
Proof.
  intros a b c. unfold db.end_date_le.
  destruct (end_date a.2), (end_date b.2), (end_date c.2); try tauto; lia.
Qed.

#[local] Instance end_date_le_total : Total db.end_date_le.
Proof.
  intros a b. unfold db.end_date_le.
  destruct (end_date a.2), (end_date b.2); try tauto; lia.
Qed.

Lemma is_expired_spec today (s : Subscriber) :
  db.is_expired today s ↔
  status s.2 = "active" ∧ ∃ e, end_date s.2 = Some e ∧ e < today.
Proof.
  unfold db.is_expired. rewrite andb_True, Is_true_true, String.eqb_eq.
  destruct (end_date s.2) as [e|].
  - rewrite Is_true_true, Z.ltb_lt. split.
    + intros [? ?]; eauto.
    + intros [? (e' & [= <-] & ?)]; auto.
  - split; [intros [_ []] | intros [_ (? & [=] & _)]].
Qed.

Lemma StronglySorted_lookup_lt {A} (R : relation A) (l : list A) i j a b :
  StronglySorted R l → l !! i = Some a → l !! j = Some b → (i < j)%nat → R a b.
Proof.
  intros Hs. revert i j. induction Hs as [|x l Hs IH Hall]; intros i j Hi Hj Hlt.
  - rewrite lookup_nil in Hi. discriminate.
  - destruct j as [|j]; [lia|]. simpl in Hj. destruct i as [|i]; simpl in Hi.
    + injection Hi as ->. rewrite Forall_forall in Hall. apply Hall.
      apply list_elem_of_lookup. eauto.
    + apply (IH i j); auto. lia.
Qed.

Lemma list_expired_subscriptions_run today w :
  default false (head (sqlite_faults w)) = false →
  db.list_expired_subscriptions today w =
  (Ok (merge_sort db.end_date_le (selected today (subscribers w))),
   with_faults (tail (sqlite_faults w)) w).
Proof.
  intros Hc. unfold db.list_expired_subscriptions, bind.
  rewrite get_connection_eq, Hc. reflexivity.
Qed.

Lemma elem_of_selected today m u r :
  (u, r) ∈ selected today m ↔
  m !! u = Some r ∧ status r = "active" ∧ ∃ e, end_date r = Some e ∧ e < today.
Proof.
  unfold selected. rewrite list_elem_of_filter, elem_of_map_to_list, is_expired_spec.
  simpl. tauto.
Qed.

(** C9: on a connection that does not raise, the sweeper's query returns
    exactly the rows with status active and a non-null end date strictly
    before today, each once, in ascending order of end date. *)
Theorem list_expired_subscriptions_exact today w :
  (db._get_connection w).1 = Ok false →
  ∃ l, (db.list_expired_subscriptions today w).1 = Ok l ∧
    (∀ u r, (u, r) ∈ l ↔
       subscribers w !! u = Some r ∧ status r = "active" ∧
       ∃ e, end_date r = Some e ∧ e < today) ∧
    NoDup l ∧
    (∀ i j a b, l !! i = Some a → l !! j = Some b → (i < j)%nat →
       ∃ x y, end_date a.2 = Some x ∧ end_date b.2 = Some y ∧ x ≤ y).
Proof.
  rewrite get_connection_eq. simpl. intros [= Hc].
  rewrite (list_expired_subscriptions_run _ _ Hc). simpl.
  eexists. split; [reflexivity|].
  assert (Hmem : ∀ s, s ∈ merge_sort db.end_date_le (selected today (subscribers w)) ↔
                      s ∈ selected today (subscribers w)).
  { intros s. by rewrite merge_sort_Permutation. }
  split; [|split].
  - intros u r. rewrite Hmem. apply elem_of_selected.
  - rewrite merge_sort_Permutation. apply NoDup_filter, NoDup_map_to_list.
  - intros i j [ua ra] [ub rb] Hi Hj Hlt.
    pose proof (StronglySorted_lookup_lt _ _ _ _ _ _
                  (StronglySorted_merge_sort db.end_date_le _) Hi Hj Hlt) as Hle.
    apply list_elem_of_lookup_2, Hmem, elem_of_selected in Hi as (_ & _ & x & Hx & _).
    apply list_elem_of_lookup_2, Hmem, elem_of_selected in Hj as (_ & _ & y & Hy & _).
    unfold db.end_date_le in Hle. simpl in *. rewrite Hx, Hy in Hle. eauto.
Qed.

Lemma list_expired_subscriptions_exact_witness :
  ∃ l, (db.list_expired_subscriptions 100 due_world).1 = Ok l ∧
    (∀ u r, (u, r) ∈ l ↔
       subscribers due_world !! u = Some r ∧ status r = "active" ∧
       ∃ e, end_date r = Some e ∧ e < 100) ∧
    NoDup l ∧
    (∀ i j a b, l !! i = Some a → l !! j = Some b → (i < j)%nat →
       ∃ x y, end_date a.2 = Some x ∧ end_date b.2 = Some y ∧ x ≤ y).
Proof. apply (list_expired_subscriptions_exact 100 due_world). reflexivity. Defined.

(** C10: for every user identifier and every string other than active,
    pending and expired, the status update returns False and the world, hence
    every record, is as before. *)
Theorem update_subscriber_status_rejects_unknown user_id s w :
  s ≠ "active" → s ≠ "pending" → s ≠ "expired" →
  db.update_subscriber_status user_id s w = (Ok false, w).
Proof.
  intros H1 H2 H3. unfold db.update_subscriber_status.
  destruct (db.member s db._ALLOWED_STATUSES) eqn:E; [|reflexivity].
  apply member_statuses in E. tauto.
Qed.

Lemma update_subscriber_status_rejects_unknown_witness :
  db.update_subscriber_status 42 "cancelled" pending_world = (Ok false, pending_world).
Proof.
  apply (update_subscriber_status_rejects_unknown 42 "cancelled" pending_world);
    discriminate.
Defined.

(** ** The sweeper *)

(** Notifying never raises and never touches the table or the database. *)
Lemma notify_attempts_frame user_id retries todo w :
  ∃ b w', scheduler.notify_attempts user_id retries todo w = (Ok b, w') ∧
    subscribers w' = subscribers w ∧ sqlite_faults w' = sqlite_faults w.
Proof.
  revert w. induction todo as [|todo IH]; intros w.
  - exists false, w. auto.
  - cbn [scheduler.notify_attempts]. unfold bind, catch, send_message, telegram.
    destruct (transport w) as [|[e|] rest]; cbn.
    + eexists _, _. eauto.
    + destruct e; cbn; try (eexists _, _; split; [reflexivity|auto]).
      * unfold sleep. cbn.
        edestruct IH as (b & w' & -> & Hs & Hf). eexists _, _. eauto.
      * destruct (scheduler.is_permanent message); cbn.
        { eexists _, _. eauto. }
        destruct (_ <? _); unfold sleep, ret; cbn;
          edestruct IH as (b & w' & -> & Hs & Hf); eexists _, _; eauto.
    + eexists _, _. eauto.
Qed.

Lemma process_run subs w :
  healthy w →
  ∃ w', scheduler.process subs w = (Ok (), w') ∧
    subscribers w' = expire_all subs.*1 (subscribers w) ∧ healthy w'.
Proof.
  revert w. induction subs as [|[u r] subs IH]; intros w Hw.
  - exists w. auto.
  - cbn [scheduler.process fst]. unfold bind at 1. unfold scheduler.notify_user.
    destruct (notify_attempts_frame u 3 3 w) as (b & w1 & -> & Hs & Hf).
    assert (Hw1 : healthy w1) by (unfold healthy; by rewrite Hf).
    unfold bind at 1.
    rewrite update_subscriber_status_run by (auto using healthy_head).
    destruct (IH (with_subscribers (alter (set_status "expired") u (subscribers w1))
                    (with_faults (tail (sqlite_faults w1)) w1)))
      as (w' & -> & Hs' & Hw').
    { apply (healthy_tail _ Hw1). }
    exists w'. split; [reflexivity|]. split; [|assumption].
    rewrite Hs'. cbn. by rewrite Hs.
Qed.

Lemma lookup_expire_all keys m k :
  expire_all keys m !! k =
  if decide (k ∈ keys) then set_status "expired" <$> m !! k else m !! k.
Proof.
  revert m. induction keys as [|a keys IH]; intros m; cbn.
  - rewrite decide_False by apply not_elem_of_nil. reflexivity.
  - fold (expire_all keys (alter (set_status "expired") a m)). rewrite IH.
    destruct (decide (a = k)) as [->|Hne].
    + rewrite lookup_alter_eq. rewrite (decide_True (P := k ∈ k :: keys)) by left.
      destruct (decide (k ∈ keys)); [|reflexivity].
      by destruct (m !! k).
    + rewrite lookup_alter_ne by done.
      destruct (decide (k ∈ keys)) as [Hin|Hin].
      * rewrite decide_True by (by right). reflexivity.
      * rewrite decide_False; [reflexivity|].
        rewrite elem_of_cons. intros [->|?]; tauto.
Qed.

(** What a run of the sweeper leaves behind on a healthy database. *)
Lemma check_expired_subscriptions_run today w :
  healthy w →
  ∃ w', scheduler.check_expired_subscriptions today w = (Ok (), w') ∧
    subscribers w' =
      expire_all (merge_sort db.end_date_le (selected today (subscribers w))).*1
        (subscribers w) ∧
    healthy w'.
Proof.
  intros Hw. unfold scheduler.check_expired_subscriptions, bind.
  rewrite list_expired_subscriptions_run by (auto using healthy_head).
  destruct (process_run (merge_sort db.end_date_le (selected today (subscribers w)))
              (with_faults (tail (sqlite_faults w)) w) (healthy_tail _ Hw))
    as (w' & -> & Hs & Hw').
  exists w'. auto.
Qed.

Lemma sends_log e w :
  sends (trace (log e w)) = (sends (trace w) + (if is_send e then 1 else 0))%nat.
Proof.
  unfold sends, log. cbn [trace]. rewrite List.filter_app, length_app. cbn.
  destruct (is_send e); reflexivity.
Qed.

#[local] Arguments log : simpl never.

Lemma notify_attempts_sends user_id retries todo w :
  (sends (trace (scheduler.notify_attempts user_id retries todo w).2)
   ≤ sends (trace w) + todo)%nat.
Proof.
  revert w. induction todo as [|todo IH]; intros w.
  - cbn. lia.
  - cbn [scheduler.notify_attempts]. unfold bind, catch, send_message, telegram.
    destruct (transport w) as [|[e|] rest]; cbn [fst snd].
    + cbn. rewrite sends_log. cbn [is_send trace with_transport]. lia.
    + destruct e; cbn [ret snd]; try (rewrite sends_log; cbn [is_send trace with_transport]; lia).
      * unfold sleep. etrans; [apply IH|]. rewrite !sends_log. cbn [is_send trace with_transport]. lia.
      * destruct (scheduler.is_permanent message); cbn [ret snd].
        { rewrite sends_log. cbn [is_send trace with_transport]. lia. }
        destruct (_ <? _); unfold sleep, ret; (etrans; [apply IH|]);
          rewrite !sends_log; cbn [is_send trace with_transport]; lia.
    + cbn. rewrite sends_log. cbn [is_send trace with_transport]. lia.
Qed.

(** C6: on a healthy database every record the sweeper's query matched has
    status expired after the run, whatever the transport answers to the
    notifications; and a transport error whose text says the user blocked the
    bot ends the notification after that one send, with no wait and no retry. *)
Theorem sweep_expires_every_match today w l s :
  healthy w →
  (db.list_expired_subscriptions today w).1 = Ok l →
  s ∈ l →
  status <$> subscribers (scheduler.check_expired_subscriptions today w).2 !! s.1
    = Some "expired" ∧
  ∀ msg rest w0,
    transport w0 = Some (TelegramAPIError msg) :: rest →
    str_in "blocked" (lower msg) = true →
    scheduler.notify_user s.1 3 w0 =
    (Ok false,
     log (SendMessage s.1 SubscriptionExpired (Some (TelegramAPIError msg)))
       (with_transport rest w0)).
Proof.
  intros Hw Hl Hs. split.
  - destruct (check_expired_subscriptions_run today w Hw) as (w' & -> & Hsub & _).
    rewrite list_expired_subscriptions_run in Hl by (auto using healthy_head).
    injection Hl as <-. cbn [snd]. rewrite Hsub, lookup_expire_all.
    rewrite decide_True by (by apply list_elem_of_fmap_2).
    rewrite merge_sort_Permutation in Hs. destruct s as [u r]. cbn [fst].
    apply elem_of_selected in Hs as (-> & _). reflexivity.
  - intros msg rest w0 Ht Hb. unfold scheduler.notify_user.
    cbn [scheduler.notify_attempts]. unfold bind, catch, send_message, telegram.
    rewrite Ht. cbn. unfold scheduler.is_permanent. rewrite Hb. reflexivity.
Qed.

(** C8: after a run of the sweeper on a healthy database, a second run on the
    same day changes no record and adds nothing to the trace (no send, no
    wait), whatever the database and the transport would answer then. *)
Theorem sweep_twice_is_quiet today w faults net :
  healthy w →
  let w1 := (scheduler.check_expired_subscriptions today w).2 in
  let w2 := (scheduler.check_expired_subscriptions today
               (with_transport net (with_faults faults w1))).2 in
  subscribers w2 = subscribers w1 ∧ trace w2 = trace w1.
Proof.
  intros Hw. destruct (check_expired_subscriptions_run today w Hw) as (w' & -> & Hsub & _).
  cbn [snd]. cbv zeta.
  assert (Hnone : selected today (subscribers w') = []).
  { destruct (selected today (subscribers w')) as [|[u r] rest] eqn:E; [reflexivity|].
    assert (Hin : (u, r) ∈ selected today (subscribers w')) by (rewrite E; left).
    apply elem_of_selected in Hin as (Hlk & Hact & e & He & Hlt).
    rewrite Hsub, lookup_expire_all in Hlk. destruct (decide _) as [Hk|Hk].
    - destruct (subscribers w !! u); [|discriminate]. injection Hlk as <-.
      discriminate Hact.
    - exfalso. apply Hk. apply (list_elem_of_fmap_2 fst _ (u, r)).
      rewrite merge_sort_Permutation. apply elem_of_selected. eauto. }
  unfold scheduler.check_expired_subscriptions, db.list_expired_subscriptions, bind.
  rewrite get_connection_eq. cbn [sqlite_faults with_faults with_transport].
  destruct (default false (head faults)); cbn.
  - auto.
  - fold (selected today (subscribers w')). rewrite Hnone. cbn. auto.
Qed.

(** C7, as the loop has it: a rate-limit answer makes the sweeper wait the
    delay the transport names and go on with the next iteration of the bounded
    loop, so the rate-limited attempt is one of the [retries] attempts; with
    [todo] attempts left after it, at most [S todo] sends are made. *)
Theorem rate_limited_attempt_is_consumed user_id retries todo t rest w :
  transport w = Some (TelegramRetryAfter t) :: rest →
  scheduler.notify_attempts user_id retries (S todo) w =
  scheduler.notify_attempts user_id retries todo
    (log (Sleep t)
       (log (SendMessage user_id SubscriptionExpired (Some (TelegramRetryAfter t)))
          (with_transport rest w))) ∧
  (sends (trace (scheduler.notify_attempts user_id retries (S todo) w).2)
   ≤ sends (trace w) + S todo)%nat.
Proof.
  intros Ht. split; [|apply notify_attempts_sends].
  cbn [scheduler.notify_attempts]. unfold bind at 1. unfold catch, send_message, telegram.
  rewrite Ht. cbn. reflexivity.
Qed.

Lemma sweep_expires_every_match_witness :
  status <$> subscribers (scheduler.check_expired_subscriptions 100 blocked_world).2 !! 8
    = Some "expired" ∧
  ∀ msg rest w0,
    transport w0 = Some (TelegramAPIError msg) :: rest →
    str_in "blocked" (lower msg) = true →
    scheduler.notify_user 8 3 w0 =
    (Ok false,
     log (SendMessage 8 SubscriptionExpired (Some (TelegramAPIError msg)))
       (with_transport rest w0)).
Proof.
  apply (sweep_expires_every_match 100 blocked_world
           [(8, row_due 40); (7, row_due 99)] (8, row_due 40)).
  - constructor.
  - vm_compute. reflexivity.
  - left.
Defined.

Lemma sweep_twice_is_quiet_witness :
  let w1 := (scheduler.check_expired_subscriptions 100 blocked_world).2 in
  let w2 := (scheduler.check_expired_subscriptions 100
               (with_transport [None] (with_faults [true] w1))).2 in
  subscribers w2 = subscribers w1 ∧ trace w2 = trace w1.
Proof. apply (sweep_twice_is_quiet 100 blocked_world [true] [None]). constructor. Defined.

Lemma rate_limited_attempt_is_consumed_witness :
  scheduler.notify_attempts 8 3 3 flooded_world =
  scheduler.notify_attempts 8 3 2
    (log (Sleep 5)
       (log (SendMessage 8 SubscriptionExpired (Some (TelegramRetryAfter 5)))
          (with_transport [Some (TelegramRetryAfter 5); Some (TelegramRetryAfter 5); None]
             flooded_world))) ∧
  (sends (trace (scheduler.notify_attempts 8 3 3 flooded_world).2)
   ≤ sends (trace flooded_world) + 3)%nat.
Proof.
  apply (rate_limited_attempt_is_consumed 8 3 2 5
           [Some (TelegramRetryAfter 5); Some (TelegramRetryAfter 5); None] flooded_world).
  reflexivity.
Defined.

(** C7 as stated fails: three rate-limit answers use up the three attempts.
    The sweeper sends three times, waits three times and gives up with False;
    the fourth answer of the transport, a delivery, is never asked for, and
    after the last wait no retry follows. *)
Lemma three_rate_limits_exhaust_the_attempts :
  scheduler.notify_user 8 3 flooded_world =
  (Ok false,
   mkWorld (subscribers due_world) [] [None]
     [SendMessage 8 SubscriptionExpired (Some (TelegramRetryAfter 5)); Sleep 5;
      SendMessage 8 SubscriptionExpired (Some (TelegramRetryAfter 5)); Sleep 5;
      SendMessage 8 SubscriptionExpired (Some (TelegramRetryAfter 5)); Sleep 5]).
Proof. vm_compute. reflexivity. Qed.

(** ** Frame: what the transport cannot change *)

Lemma transport_only_ret {A} (a : A) : transport_only (ret a).
Proof. intros w. auto. Qed.

Lemma transport_only_lift {A} (r : result A) : transport_only (lift r).
Proof. intros w. auto. Qed.

Lemma transport_only_bind {A B} (m : M A) (k : A → M B) :
  transport_only m → (∀ a, transport_only (k a)) → transport_only (bind m k).
Proof.
  intros Hm Hk w. unfold bind. destruct (Hm w) as [H1 H2].
  destruct (m w) as [[a|e] w1]; cbn [snd] in *; [|auto].
  destruct (Hk a w1) as [H3 H4]. split; congruence.
Qed.

Lemma transport_only_try_except {A} (m : M A) (h : exn → M A) :
  transport_only m → (∀ e, transport_only (h e)) → transport_only (try_except m h).
Proof.
  intros Hm Hh w. unfold try_except. destruct (Hm w) as [H1 H2].
  destruct (m w) as [[a|e] w1]; cbn [snd] in *; [auto|].
  destruct (Hh e w1) as [H3 H4]. split; congruence.
Qed.

Lemma transport_only_telegram call : transport_only (telegram call).
Proof. intros w. unfold telegram. destruct (transport w) as [|[e|] rest]; auto. Qed.

Lemma transport_only_send_message chat_id text : transport_only (send_message chat_id text).
Proof. apply transport_only_telegram. Qed.

Lemma transport_only_answer caller text alert : transport_only (answer caller text alert).
Proof. apply transport_only_telegram. Qed.

Lemma transport_only_edit_text action target : transport_only (edit_text action target).
Proof. apply transport_only_telegram. Qed.

Lemma transport_only_clear_state user : transport_only (clear_state user).
Proof. intros w. auto. Qed.

Create HintDb frame.
#[local] Hint Resolve transport_only_ret transport_only_lift transport_only_bind
  transport_only_try_except transport_only_send_message transport_only_answer
  transport_only_edit_text transport_only_clear_state : frame.

Lemma transport_only_confirmation user_id :
  transport_only (send_user_subscription_confirmation user_id).
Proof. unfold send_user_subscription_confirmation. auto 10 with frame. Qed.

Lemma transport_only_declined user_id :
  transport_only (send_user_payment_declined user_id).
Proof. unfold send_user_payment_declined. auto 10 with frame. Qed.

Lemma transport_only_admin_confirmation ADMIN_ID action user_data :
  transport_only (send_admin_confirmation ADMIN_ID action user_data).
Proof. unfold send_admin_confirmation. auto 10 with frame. Qed.

Lemma transport_only_payment_notification ADMIN_ID user_id :
  transport_only (send_admin_payment_notification ADMIN_ID user_id).
Proof. unfold send_admin_payment_notification. auto 10 with frame. Qed.

#[local] Hint Resolve transport_only_confirmation transport_only_declined
  transport_only_admin_confirmation transport_only_payment_notification : frame.

(** An exception handler around a sequence guards each step of it. *)
Lemma try_except_bind {A B} (m : M A) (k : A → M B) (h : exn → M B) w :
  try_except (bind m k) h w =
  match m w with
  | (Ok a, w') => try_except (k a) h w'
  | (Raise e, w') => h e w'
  end.
Proof. unfold try_except, bind. destruct (m w) as [[a|e] w']; reflexivity. Qed.

(** ** Running the remaining store operations *)

Lemma get_subscriber_run user_id w :
  default false (head (sqlite_faults w)) = false →
  db.get_subscriber user_id w =
  (Ok (pair user_id <$> subscribers w !! user_id), with_faults (tail (sqlite_faults w)) w).
Proof.
  intros Hc. unfold db.get_subscriber, bind. rewrite get_connection_eq, Hc. reflexivity.
Qed.

Lemma member_types ty :
  db.member ty db._ALLOWED_SUBSCRIPTION_TYPES = true ↔ ty = "monthly" ∨ ty = "lifetime".
Proof.
  unfold db.member, db._ALLOWED_SUBSCRIPTION_TYPES. rewrite bool_decide_eq_true.
  rewrite !elem_of_cons, elem_of_nil. tauto.
Qed.

Lemma update_subscription_dates_hit user_id sd ed ty r w :
  ty = "monthly" ∨ ty = "lifetime" →
  default false (head (sqlite_faults w)) = false →
  subscribers w !! user_id = Some r →
  db.update_subscription_dates user_id sd ed (Some ty) w =
  (Ok true,
   with_subscribers (<[user_id := set_dates sd ed ty r]> (subscribers w))
     (with_faults (tail (sqlite_faults w)) w)).
Proof.
  intros Hty Hc Hr. unfold db.update_subscription_dates, bind.
  apply member_types in Hty. rewrite Hty. cbn [negb].
  rewrite get_connection_eq, Hc. cbn. rewrite Hr. reflexivity.
Qed.

Lemma update_subscriber_status_fault user_id s w :
  db.member s db._ALLOWED_STATUSES = true →
  default false (head (sqlite_faults w)) = true →
  db.update_subscriber_status user_id s w =
  (Ok false, with_faults (tail (sqlite_faults w)) w).
Proof.
  intros Hs Hc. unfold db.update_subscriber_status, bind. rewrite Hs. cbn [negb].
  rewrite get_connection_eq, Hc. reflexivity.
Qed.

Lemma update_subscriber_status_hit user_id s r w :
  db.member s db._ALLOWED_STATUSES = true →
  default false (head (sqlite_faults w)) = false →
  subscribers w !! user_id = Some r →
  db.update_subscriber_status user_id s w =
  (Ok true,
   with_subscribers (<[user_id := set_status s r]> (subscribers w))
     (with_faults (tail (sqlite_faults w)) w)).
Proof.
  intros Hs Hc Hr. unfold db.update_subscriber_status, bind. rewrite Hs. cbn [negb].
  rewrite get_connection_eq, Hc. cbn. rewrite Hr. reflexivity.
Qed.

(** ** The approval engine and the receipt submission *)

Lemma healthy_faults w w' : sqlite_faults w' = sqlite_faults w → healthy w → healthy w'.
Proof. unfold healthy. by intros ->. Qed.

Ltac frame_tail Hs Hf :=
  match goal with
  | |- context [try_except ?m ?h ?w0] =>
    let Hfr := fresh "Hfr" in
    assert (Hfr : transport_only (try_except m h)) by auto 20 with frame;
    destruct (Hfr w0) as [Hs Hf]
  end.

Section handlers_run.

Context (ADMIN_ID MONTHLY_DAYS : Z).

(** Approving an existing record that carries a plan, on a healthy database
    and with the dates in range: the row that results, whatever the transport
    does. *)
Lemma approve_run caller target today w r ty :
  healthy w →
  subscribers w !! target = Some r →
  subscription_type r = Some ty →
  ty = "monthly" ∨ ty = "lifetime" →
  no_overflow today (approval_days MONTHLY_DAYS ty) →
  let w' := (handle_admin_action ADMIN_ID MONTHLY_DAYS caller approve target today w).2 in
  subscribers w' =
    <[target := mkRow (username r) (Some today)
                  (Some (today + approval_days MONTHLY_DAYS ty)) "active" (Some ty)]>
      (subscribers w) ∧
  healthy w'.
Proof.
  intros Hw Hr Hty Hplan Hov. cbv zeta.
  pose proof (healthy_tail _ Hw) as Hw1.
  pose proof (healthy_tail _ Hw1) as Hw2.
  pose proof (healthy_tail _ Hw2) as Hw3.
  remember (handle_admin_action ADMIN_ID MONTHLY_DAYS caller approve target today w)
    as res eqn:Hres.
  unfold handle_admin_action in Hres. unfold bind at 1 in Hres.
  rewrite get_subscriber_run in Hres by auto using healthy_head.
  rewrite Hr in Hres. cbn [fmap option_fmap option_map] in Hres.
  rewrite try_except_bind in Hres.
  rewrite (update_subscriber_status_hit target "active" r) in Hres by auto using healthy_head.
  cbn [negb snd] in Hres. rewrite Hty, try_except_bind in Hres. unfold lift at 1 in Hres.
  assert (Hdate : (if bool_decide (Some ty = Some "lifetime")
                   then date_add today (365 * 10) else date_add today MONTHLY_DAYS)
                  = Ok (today + approval_days MONTHLY_DAYS ty)).
  { unfold no_overflow, approval_days in *.
    destruct Hplan as [-> | ->]; exact Hov. }
  rewrite Hdate, try_except_bind in Hres.
  rewrite (update_subscription_dates_hit target _ _ ty (set_status "active" r)) in Hres
    by (auto using healthy_head; apply lookup_insert_eq).
  subst res. frame_tail Hs Hf. split.
  - etrans; [exact Hs|].
    cbn [subscribers with_subscribers with_faults]. rewrite insert_insert_eq. reflexivity.
  - exact (healthy_faults _ _ Hf Hw3).
Qed.

(** Submitting a receipt for a chosen plan, on a healthy database and with the
    dates in range. *)
Lemma receipt_run user ty today w r :
  healthy w →
  subscribers w !! user = Some r →
  ty = "monthly" ∨ ty = "lifetime" →
  (ty = "monthly" → no_overflow today MONTHLY_DAYS) →
  let w' := (handle_receipt_photo ADMIN_ID MONTHLY_DAYS user (Some ty) today w).2 in
  subscribers w' =
    <[user := mkRow (username r) (Some today)
                (if bool_decide (ty = "monthly") then Some (today + MONTHLY_DAYS) else None)
                "pending" (Some ty)]>
      (subscribers w) ∧
  healthy w'.
Proof.
  intros Hw Hr Hplan Hov. cbv zeta.
  pose proof (healthy_tail _ Hw) as Hw1.
  pose proof (healthy_tail _ Hw1) as Hw2.
  remember (handle_receipt_photo ADMIN_ID MONTHLY_DAYS user (Some ty) today w)
    as res eqn:Hres.
  unfold handle_receipt_photo in Hres. rewrite try_except_bind in Hres.
  rewrite (update_subscriber_status_hit user "pending" r) in Hres by auto using healthy_head.
  rewrite try_except_bind in Hres.
  set (w1 := with_subscribers _ _) in *.
  assert (Hend : (if bool_decide (Some ty = Some "monthly")
                  then bind (lift (date_add today MONTHLY_DAYS)) (λ d, ret (Some d))
                  else ret None) w1
                 = (Ok (if bool_decide (ty = "monthly")
                        then Some (today + MONTHLY_DAYS) else None), w1)).
  { destruct Hplan as [-> | ->].
    - specialize (Hov eq_refl). unfold no_overflow in Hov.
      unfold bind, lift. cbn. rewrite Hov. reflexivity.
    - reflexivity. }
  rewrite Hend, try_except_bind in Hres. cbn [default] in Hres. subst w1.
  rewrite (update_subscription_dates_hit user _ _ ty (set_status "pending" r)) in Hres
    by (auto using healthy_head; apply lookup_insert_eq).
  subst res. frame_tail Hs Hf. split.
  - etrans; [exact Hs|].
    cbn [subscribers with_subscribers with_faults]. rewrite insert_insert_eq. reflexivity.
  - exact (healthy_faults _ _ Hf Hw2).
Qed.

(** C3, as the code has it: on a healthy database, approving an existing
    record that carries a plan sets its status to active, sets its start date
    to the day of the approval, whatever start date was stored, and its end
    date to that day plus 3650 days for lifetime and plus the configured
    monthly duration for monthly. *)
Theorem approve_recomputes_from_approval_day caller target today w r ty :
  healthy w →
  subscribers w !! target = Some r →
  subscription_type r = Some ty →
  ty = "monthly" ∨ ty = "lifetime" →
  no_overflow today (approval_days MONTHLY_DAYS ty) →
  ∃ r',
    subscribers (handle_admin_action ADMIN_ID MONTHLY_DAYS caller approve target today w).2
      !! target = Some r' ∧
    status r' = "active" ∧
    start_date r' = Some today ∧
    (ty = "lifetime" → end_date r' = Some (today + 365 * 10)) ∧
    (ty = "monthly" → end_date r' = Some (today + MONTHLY_DAYS)) ∧
    subscription_type r' = Some ty ∧ username r' = username r.
Proof.
  intros Hw Hr Hty Hplan Hov.
  destruct (approve_run caller target today w r ty Hw Hr Hty Hplan Hov) as [Hs _].
  eexists. split; [rewrite Hs; apply lookup_insert_eq|]. cbn.
  unfold approval_days. repeat split; auto; intros ->; reflexivity.
Qed.

(** C2, as the code has it: on a healthy database, a record with a plan that
    has been approved has a start date and a non-null end date; for lifetime
    the end date is the start date plus 3650 days, for monthly it is the start
    date plus the configured monthly duration exactly. *)
Theorem approved_record_end_date caller target today w r ty :
  healthy w →
  subscribers w !! target = Some r →
  subscription_type r = Some ty →
  ty = "monthly" ∨ ty = "lifetime" →
  no_overflow today (approval_days MONTHLY_DAYS ty) →
  ∃ r' s e,
    subscribers (handle_admin_action ADMIN_ID MONTHLY_DAYS caller approve target today w).2
      !! target = Some r' ∧
    status r' = "active" ∧ subscription_type r' = Some ty ∧
    start_date r' = Some s ∧ end_date r' = Some e ∧
    (ty = "lifetime" → e = s + 3650) ∧
    (ty = "monthly" → e = s + MONTHLY_DAYS).
Proof.
  intros Hw Hr Hty Hplan Hov.
  destruct (approve_run caller target today w r ty Hw Hr Hty Hplan Hov) as [Hs _].
  eexists _, _, _. split; [rewrite Hs; apply lookup_insert_eq|]. cbn.
  unfold approval_days. repeat split; intros ->; reflexivity.
Qed.

(** C4, as the code has it: the receipt submission writes the start date of
    the day and the end date (that day plus the monthly duration for monthly,
    null for lifetime); a later approval writes both dates again, from the day
    of the approval. *)
Theorem dates_written_at_submission_and_at_approval user caller ty d1 d2 w r :
  healthy w →
  subscribers w !! user = Some r →
  ty = "monthly" ∨ ty = "lifetime" →
  (ty = "monthly" → no_overflow d1 MONTHLY_DAYS) →
  no_overflow d2 (approval_days MONTHLY_DAYS ty) →
  let w1 := (handle_receipt_photo ADMIN_ID MONTHLY_DAYS user (Some ty) d1 w).2 in
  let w2 := (handle_admin_action ADMIN_ID MONTHLY_DAYS caller approve user d2 w1).2 in
  dates_of w1 user =
    Some (Some d1, if bool_decide (ty = "monthly") then Some (d1 + MONTHLY_DAYS) else None) ∧
  dates_of w2 user = Some (Some d2, Some (d2 + approval_days MONTHLY_DAYS ty)).
Proof.
  intros Hw Hr Hplan Hov1 Hov2. cbv zeta.
  destruct (receipt_run user ty d1 w r Hw Hr Hplan Hov1) as [Hs1 Hw1].
  set (w1 := (handle_receipt_photo ADMIN_ID MONTHLY_DAYS user (Some ty) d1 w).2) in *.
  assert (Hr1 : subscribers w1 !! user =
                Some (mkRow (username r) (Some d1)
                        (if bool_decide (ty = "monthly") then Some (d1 + MONTHLY_DAYS) else None)
                        "pending" (Some ty))).
  { rewrite Hs1. apply lookup_insert_eq. }
  destruct (approve_run caller user d2 w1 _ ty Hw1 Hr1 eq_refl Hplan Hov2) as [Hs2 _].
  unfold dates_of. split.
  - rewrite Hr1. reflexivity.
  - rewrite Hs2, lookup_insert_eq. reflexivity.
Qed.

Lemma sends_app_quiet tr evs :
  Forall (λ e, is_send e = false) evs → sends (tr ++ evs) = sends tr.
Proof.
  intros H. unfold sends. rewrite List.filter_app, length_app.
  assert (Hnil : List.filter is_send evs = []).
  { induction H as [|e evs He _ IH]; [reflexivity|]. cbn. by rewrite He. }
  rewrite Hnil. cbn. lia.
Qed.

(** When the record exists and the status write fails, approve and decline
    stop there: the table is as before, nothing is sent to any chat, and the
    only events are alerts answered to the caller, the first of them the
    failure alert. *)
Lemma failed_status_write_aborts caller action target today w r rest :
  subscribers w !! target = Some r →
  sqlite_faults w = false :: true :: rest →
  let w' := (handle_admin_action ADMIN_ID MONTHLY_DAYS caller action target today w).2 in
  subscribers w' = subscribers w ∧
  sends (trace w') = sends (trace w) ∧
  ∃ o more,
    trace w' = trace w ++ AnswerCallback caller FailedToUpdateStatus true o :: more ∧
    Forall (λ e, ∃ o', e = AnswerCallback caller (ErrorProcessing action) true o') more.
Proof.
  intros Hr Hf. cbv zeta.
  assert (Hrun : ∃ o more,
    subscribers (handle_admin_action ADMIN_ID MONTHLY_DAYS caller action target today w).2
      = subscribers w ∧
    trace (handle_admin_action ADMIN_ID MONTHLY_DAYS caller action target today w).2
      = trace w ++ AnswerCallback caller FailedToUpdateStatus true o :: more ∧
    Forall (λ e, ∃ o', e = AnswerCallback caller (ErrorProcessing action) true o') more).
  { remember (handle_admin_action ADMIN_ID MONTHLY_DAYS caller action target today w)
      as res eqn:Hres.
    unfold handle_admin_action in Hres. unfold bind at 1 in Hres.
    rewrite get_subscriber_run in Hres by (by rewrite Hf).
    rewrite Hr in Hres. cbn [fmap option_fmap option_map] in Hres.
    assert (Hstep : ∀ s, db.member s db._ALLOWED_STATUSES = true →
              db.update_subscriber_status target s (with_faults (tail (sqlite_faults w)) w)
              = (Ok false, with_faults rest w)).
    { intros s Hs. rewrite update_subscriber_status_fault; [|exact Hs|cbn; by rewrite Hf].
      unfold with_faults. cbn. rewrite Hf. reflexivity. }
    assert (Hans : ∀ w0 : World, subscribers w0 = subscribers w → trace w0 = trace w →
              ∃ o more,
                subscribers (try_except (answer caller FailedToUpdateStatus true)
                     (λ _, answer caller (ErrorProcessing action) true) w0).2
                  = subscribers w ∧
                trace (try_except (answer caller FailedToUpdateStatus true)
                     (λ _, answer caller (ErrorProcessing action) true) w0).2
                  = trace w ++ AnswerCallback caller FailedToUpdateStatus true o :: more ∧
                Forall (λ e, ∃ o', e = AnswerCallback caller (ErrorProcessing action) true o')
                  more).
    { intros [m f t tr] Hm Htr. cbn in Hm, Htr. subst m tr.
      unfold try_except, answer, telegram, log, with_transport. cbn.
      destruct t as [|[e|] t]; cbn.
      - exists None, []. auto.
      - destruct t as [|[e'|] t]; cbn;
          eexists _, [_]; rewrite <- app_assoc; repeat split; eauto.
      - exists None, []. auto. }
    destruct action; rewrite try_except_bind, Hstep in Hres by reflexivity;
      cbn [negb] in Hres; subst res; apply Hans; reflexivity. }
  destruct Hrun as (o & more & Hs & Ht & Hall).
  split; [exact Hs|]. split; [|eauto].
  rewrite Ht. apply sends_app_quiet. constructor; [reflexivity|].
  eapply Forall_impl; [exact Hall|]. intros e [o' ->]. reflexivity.
Qed.

End handlers_run.

(** ** A decision whose writes fail *)

Lemma extends_trace_ret {A} (a : A) : extends_trace (ret a).
Proof. intros w. exists []. cbn. by rewrite app_nil_r. Qed.

Lemma extends_trace_lift {A} (r : result A) : extends_trace (lift r).
Proof. intros w. exists []. cbn. by rewrite app_nil_r. Qed.

Lemma extends_trace_bind {A B} (m : M A) (k : A → M B) :
  extends_trace m → (∀ a, extends_trace (k a)) → extends_trace (bind m k).
Proof.
  intros Hm Hk w. unfold bind. destruct (Hm w) as [e1 H1].
  destruct (m w) as [[a|e] w1]; cbn [snd] in *; [|eauto].
  destruct (Hk a w1) as [e2 H2]. exists (e1 ++ e2). by rewrite H2, H1, app_assoc.
Qed.

Lemma extends_trace_try_except {A} (m : M A) (h : exn → M A) :
  extends_trace m → (∀ e, extends_trace (h e)) → extends_trace (try_except m h).
Proof.
  intros Hm Hh w. unfold try_except. destruct (Hm w) as [e1 H1].
  destruct (m w) as [[a|e] w1]; cbn [snd] in *; [eauto|].
  destruct (Hh e w1) as [e2 H2]. exists (e1 ++ e2). by rewrite H2, H1, app_assoc.
Qed.

Lemma extends_trace_telegram call : extends_trace (telegram call).
Proof.
  intros w. unfold telegram, log, with_transport.
  destruct (transport w) as [|[e|] rest]; cbn; eauto.
Qed.

Lemma extends_trace_answer caller text alert : extends_trace (answer caller text alert).
Proof. apply extends_trace_telegram. Qed.

Lemma extends_trace_edit_text action target : extends_trace (edit_text action target).
Proof. apply extends_trace_telegram. Qed.

Create HintDb grow.
#[local] Hint Resolve extends_trace_ret extends_trace_lift extends_trace_bind
  extends_trace_try_except extends_trace_answer extends_trace_edit_text : grow.

Lemma update_subscription_dates_fault user_id sd ed ty w :
  ty = "monthly" ∨ ty = "lifetime" →
  default false (head (sqlite_faults w)) = true →
  db.update_subscription_dates user_id sd ed (Some ty) w =
  (Ok false, with_faults (tail (sqlite_faults w)) w).
Proof.
  intros Hty Hc. unfold db.update_subscription_dates, bind.
  apply member_types in Hty. rewrite Hty. cbn [negb].
  rewrite get_connection_eq, Hc. reflexivity.
Qed.

(** The approval notice is attempted whatever the transport answers, and its
    failure is swallowed. *)
Lemma confirmation_step user_id w :
  ∃ b o w',
    send_user_subscription_confirmation user_id w = (Ok b, w') ∧
    trace w' = trace w ++ [SendMessage user_id PaymentApproved o] ∧
    subscribers w' = subscribers w.
Proof.
  unfold send_user_subscription_confirmation, try_except, bind, send_message, telegram, ret,
    log, with_transport.
  destruct (transport w) as [|[e|] rest]; cbn; eauto 10.
Qed.

Lemma admin_confirmation_step ADMIN_ID action user_id r ty w :
  subscription_type r = Some ty →
  ∃ b o w',
    send_admin_confirmation ADMIN_ID action (user_id, r) w = (Ok b, w') ∧
    trace w' = trace w ++ [SendMessage ADMIN_ID (AdminConfirmation action user_id) o] ∧
    subscribers w' = subscribers w.
Proof.
  intros Hty.
  unfold send_admin_confirmation, try_except, bind, send_message, telegram, ret, lift, title,
    log, with_transport.
  cbn [fst snd]. rewrite Hty.
  destruct (transport w) as [|[e|] rest]; cbn; eauto 10.
Qed.

Section failed_writes.

Context (ADMIN_ID MONTHLY_DAYS : Z).

(** When the record exists and carries a plan, the status write succeeds and
    the dates write fails, approve goes on: the row is active with the dates
    it had, and the user and the admin chat are sent their messages, whatever
    the transport answers. *)
Lemma failed_dates_write_goes_on caller target today w r ty rest :
  subscribers w !! target = Some r →
  sqlite_faults w = false :: false :: true :: rest →
  subscription_type r = Some ty →
  ty = "monthly" ∨ ty = "lifetime" →
  no_overflow today (approval_days MONTHLY_DAYS ty) →
  let w' := (handle_admin_action ADMIN_ID MONTHLY_DAYS caller approve target today w).2 in
  subscribers w' = <[target := set_status "active" r]> (subscribers w) ∧
  ∃ o1 o2 more,
    trace w' =
      trace w ++ SendMessage target PaymentApproved o1 ::
                 SendMessage ADMIN_ID (AdminConfirmation approve target) o2 :: more.
Proof.
  intros Hr Hf Hty Hplan Hov. cbv zeta.
  destruct w as [m f t tr]. cbn [subscribers sqlite_faults trace] in *. subst f.
  remember (handle_admin_action ADMIN_ID MONTHLY_DAYS caller approve target today
              (mkWorld m (false :: false :: true :: rest) t tr)) as res eqn:Hres.
  unfold handle_admin_action in Hres. unfold bind at 1 in Hres.
  rewrite get_subscriber_run in Hres by reflexivity.
  cbn [subscribers sqlite_faults with_faults tail] in Hres.
  rewrite Hr in Hres. cbn [fmap option_fmap option_map] in Hres.
  rewrite try_except_bind in Hres.
  rewrite (update_subscriber_status_hit target "active" r) in Hres by (reflexivity || exact Hr).
  cbn [negb snd subscribers sqlite_faults with_faults with_subscribers tail] in Hres.
  rewrite Hty, try_except_bind in Hres. unfold lift at 1 in Hres.
  assert (Hdate : (if bool_decide (Some ty = Some "lifetime")
                   then date_add today (365 * 10) else date_add today MONTHLY_DAYS)
                  = Ok (today + approval_days MONTHLY_DAYS ty)).
  { unfold no_overflow, approval_days in *.
    destruct Hplan as [-> | ->]; exact Hov. }
  rewrite Hdate, try_except_bind in Hres.
  rewrite (update_subscription_dates_fault target _ _ ty) in Hres by (assumption || reflexivity).
  cbn [subscribers sqlite_faults with_faults with_subscribers tail transport trace] in Hres.
  rewrite try_except_bind in Hres.
  match type of Hres with
  | context [send_user_subscription_confirmation target ?w3] =>
    destruct (confirmation_step target w3) as (b1 & o1 & w4 & E1 & T1 & S1)
  end.
  rewrite E1, try_except_bind in Hres.
  destruct (admin_confirmation_step ADMIN_ID approve target r ty w4 Hty)
    as (b2 & o2 & w5 & E2 & T2 & S2).
  rewrite E2 in Hres.
  match type of Hres with
  | _ = try_except ?tail ?h w5 =>
    assert (Hfr : transport_only (try_except tail h)) by auto 20 with frame;
    assert (Hgr : extends_trace (try_except tail h)) by auto 20 with grow;
    destruct (Hfr w5) as [Hs _]; destruct (Hgr w5) as [more Hm]
  end.
  subst res. split.
  - rewrite Hs, S2, S1. reflexivity.
  - exists o1, o2, more. rewrite Hm, T2, T1. cbn [trace].
    rewrite <- !app_assoc. reflexivity.
Qed.

(** C5, as the code has it, for a decision on an existing record.  When the
    status write fails, approve and decline stop there: the table is as
    before, nothing is sent to any chat, and the only events are alerts
    answered to the caller, the first of them the failure alert.  When the
    status write of approve succeeds and the write of the dates fails, that
    outcome is not looked at: the row is active and keeps the dates it had,
    and the user and the admin chat are sent their messages all the same. *)
Theorem failed_writes_in_a_decision caller target today w r :
  subscribers w !! target = Some r →
  (∀ action rest,
     sqlite_faults w = false :: true :: rest →
     let w' := (handle_admin_action ADMIN_ID MONTHLY_DAYS caller action target today w).2 in
     subscribers w' = subscribers w ∧
     sends (trace w') = sends (trace w) ∧
     ∃ o more,
       trace w' = trace w ++ AnswerCallback caller FailedToUpdateStatus true o :: more ∧
       Forall (λ e, ∃ o', e = AnswerCallback caller (ErrorProcessing action) true o') more) ∧
  (∀ ty rest,
     sqlite_faults w = false :: false :: true :: rest →
     subscription_type r = Some ty →
     ty = "monthly" ∨ ty = "lifetime" →
     no_overflow today (approval_days MONTHLY_DAYS ty) →
     let w' := (handle_admin_action ADMIN_ID MONTHLY_DAYS caller approve target today w).2 in
     subscribers w' = <[target := set_status "active" r]> (subscribers w) ∧
     ∃ o1 o2 more,
       trace w' =
         trace w ++ SendMessage target PaymentApproved o1 ::
                    SendMessage ADMIN_ID (AdminConfirmation approve target) o2 :: more).
Proof.
  intros Hr. split.
  - intros action rest Hf.
    exact (failed_status_write_aborts ADMIN_ID MONTHLY_DAYS caller action target today w r rest
             Hr Hf).
  - intros ty rest Hf Hty Hplan Hov.
    exact (failed_dates_write_goes_on caller target today w r ty rest Hr Hf Hty Hplan Hov).
Qed.

End failed_writes.

(** ** Instances and concrete runs *)

Lemma approve_recomputes_from_approval_day_witness :
  ∃ r',
    subscribers (handle_admin_action 1 30 1 approve 42 105 pending_world).2 !! 42 = Some r' ∧
    status r' = "active" ∧
    start_date r' = Some 105 ∧
    ("monthly" = "lifetime" → end_date r' = Some (105 + 365 * 10)) ∧
    ("monthly" = "monthly" → end_date r' = Some (105 + 30)) ∧
    subscription_type r' = Some "monthly" ∧ username r' = username row_monthly.
Proof.
  apply (approve_recomputes_from_approval_day 1 30 1 42 105 pending_world row_monthly "monthly").
  - constructor.
  - reflexivity.
  - reflexivity.
  - left. reflexivity.
  - reflexivity.
Defined.

(** C3 as stated fails: the stored start date of user 42 is day 100; approved
    on day 105 with a monthly duration of 30 days, the record ends on day 135,
    not on day 130, and its start date becomes day 105. *)
Lemma approve_ignores_the_stored_start_date :
  let w' := (handle_admin_action 1 30 1 approve 42 105 pending_world).2 in
  dates_of pending_world 42 = Some (Some 100, Some 130) ∧
  dates_of w' 42 = Some (Some 105, Some 135) ∧
  dates_of w' 42 ≠ Some (Some 100, Some (100 + 30)).
Proof. vm_compute. repeat split; discriminate. Qed.

Lemma approved_record_end_date_witness :
  ∃ r' s e,
    subscribers (handle_admin_action 1 30 1 approve 7 100 pending_world).2 !! 7 = Some r' ∧
    status r' = "active" ∧ subscription_type r' = Some "lifetime" ∧
    start_date r' = Some s ∧ end_date r' = Some e ∧
    ("lifetime" = "lifetime" → e = s + 3650) ∧
    ("lifetime" = "monthly" → e = s + 30).
Proof.
  apply (approved_record_end_date 1 30 1 7 100 pending_world row_lifetime "lifetime").
  - constructor.
  - reflexivity.
  - reflexivity.
  - right. reflexivity.
  - reflexivity.
Defined.

(** C2 as stated fails: the lifetime record of user 7, approved, has the end
    date of day 3750, so a null end date and a lifetime plan do not go
    together on approved records. *)
Lemma approved_lifetime_record_has_an_end_date :
  let w' := (handle_admin_action 1 30 1 approve 7 100 pending_world).2 in
  subscribers w' !! 7 =
    Some (mkRow (Some "al") (Some 100) (Some 3750) "active" (Some "lifetime")) ∧
  ¬ (∀ r, subscribers w' !! 7 = Some r →
          (end_date r = None ↔ subscription_type r = Some "lifetime")).
Proof.
  cbv zeta.
  assert (H : subscribers (handle_admin_action 1 30 1 approve 7 100 pending_world).2 !! 7 =
              Some (mkRow (Some "al") (Some 100) (Some 3750) "active" (Some "lifetime"))).
  { vm_compute. reflexivity. }
  split; [exact H|]. intros Hall. apply Hall in H. cbn in H.
  destruct H as [_ H]. specialize (H eq_refl). discriminate.
Qed.

Lemma dates_written_at_submission_and_at_approval_witness :
  let w1 := (handle_receipt_photo 1 30 42 (Some "monthly") 100 pending_world).2 in
  let w2 := (handle_admin_action 1 30 1 approve 42 105 w1).2 in
  dates_of w1 42 =
    Some (Some 100, if bool_decide ("monthly" = "monthly") then Some (100 + 30) else None) ∧
  dates_of w2 42 = Some (Some 105, Some (105 + approval_days 30 "monthly")).
Proof.
  apply (dates_written_at_submission_and_at_approval 1 30 42 1 "monthly" 100 105
           pending_world row_monthly).
  - constructor.
  - reflexivity.
  - left. reflexivity.
  - intros _. reflexivity.
  - reflexivity.
Defined.

(** C4 as stated fails: a monthly receipt submitted on day 100 fixes the dates
    (100, 130); the approval on day 105 replaces them by (105, 135).  For a
    lifetime receipt the null end date of the submission becomes day 3755. *)
Lemma approval_moves_the_submission_dates :
  let w1 := (handle_receipt_photo 1 30 42 (Some "monthly") 100 pending_world).2 in
  let w2 := (handle_admin_action 1 30 1 approve 42 105 w1).2 in
  let v1 := (handle_receipt_photo 1 30 7 (Some "lifetime") 100 pending_world).2 in
  let v2 := (handle_admin_action 1 30 1 approve 7 105 v1).2 in
  dates_of w1 42 = Some (Some 100, Some 130) ∧
  dates_of w2 42 = Some (Some 105, Some 135) ∧
  dates_of w2 42 ≠ dates_of w1 42 ∧
  dates_of v1 7 = Some (Some 100, None) ∧
  dates_of v2 7 = Some (Some 105, Some 3755).
Proof. vm_compute. repeat split; discriminate. Qed.

Lemma failed_writes_in_a_decision_witness :
  (let w := with_faults [false; true] pending_world in
   let w' := (handle_admin_action 1 30 1 decline 42 105 w).2 in
   subscribers w' = subscribers w ∧
   sends (trace w') = sends (trace w) ∧
   ∃ o more,
     trace w' = trace w ++ AnswerCallback 1 FailedToUpdateStatus true o :: more ∧
     Forall (λ e, ∃ o', e = AnswerCallback 1 (ErrorProcessing decline) true o') more) ∧
  (let w := with_faults [false; false; true] pending_world in
   let w' := (handle_admin_action 1 30 1 approve 7 105 w).2 in
   subscribers w' = <[7 := set_status "active" row_lifetime]> (subscribers w) ∧
   ∃ o1 o2 more,
     trace w' =
       trace w ++ SendMessage 7 PaymentApproved o1 ::
                  SendMessage 1 (AdminConfirmation approve 7) o2 :: more).
Proof.
  split.
  - apply (proj1 (failed_writes_in_a_decision 1 30 1 42 105
                    (with_faults [false; true] pending_world) row_monthly eq_refl)
             decline []).
    reflexivity.
  - apply (proj2 (failed_writes_in_a_decision 1 30 1 7 105
                    (with_faults [false; false; true] pending_world) row_lifetime eq_refl)
             "lifetime" []).
    + reflexivity.
    + reflexivity.
    + right. reflexivity.
    + reflexivity.
Defined.

(** C5 as stated fails: in approve the write of the dates is a second
    persistence write, and its outcome is not looked at.  With the third
    connection raising, the dates write returns False and is rolled back (the
    row keeps the dates of the submission), yet the user is sent the approval
    and the caller is told that the payment is approved. *)
Lemma failed_dates_write_still_notifies :
  let w := with_faults [false; false; true] pending_world in
  let w' := (handle_admin_action 1 30 1 approve 7 105 w).2 in
  (db.update_subscription_dates 7 (Some 105) (Some 3755) (Some "lifetime")
     (with_faults [true] pending_world)).1 = Ok false ∧
  subscribers w' !! 7 = Some (mkRow (Some "al") (Some 100) None "active" (Some "lifetime")) ∧
  trace w' =
    [SendMessage 7 PaymentApproved None;
     SendMessage 1 (AdminConfirmation approve 7) None;
     EditText approve 7 None;
     AnswerCallback 1 ApprovedAndNotified false None].
Proof. vm_compute. repeat split; reflexivity. Qed.

(** C1 at the failing input: the administrator is user 1 and the caller is
    user 999, which [AdminFilter] would report as not an admin.  The approve
    of user 42 goes through all the same: the record becomes active with new
    dates, user 42 is sent the approval, and the caller is answered that the
    payment is approved, not that access is denied. *)
Theorem approve_by_a_non_admin_goes_through :
  AdminFilter 1 999 = (false, 999) ∧
  handle_admin_action 1 30 999 approve 42 105 pending_world =
  (Ok (),
   mkWorld
     (<[42 := mkRow (Some "bob") (Some 105) (Some 135) "active" (Some "monthly")]>
        (subscribers pending_world))
     [] []
     [SendMessage 42 PaymentApproved None;
      SendMessage 1 (AdminConfirmation approve 42) None;
      EditText approve 42 None;
      AnswerCallback 999 ApprovedAndNotified false None]).
Proof. vm_compute. split; reflexivity. Qed.

(** * Further properties of the code *)

(** ** The record store *)

Lemma update_subscriber_status_eq user_id s w :
  db.update_subscriber_status user_id s w =
  if negb (db.member s db._ALLOWED_STATUSES) then (Ok false, w)
  else if default false (head (sqlite_faults w))
  then (Ok false, with_faults (tail (sqlite_faults w)) w)
  else match subscribers w !! user_id with
       | Some r =>
         (Ok true,
          with_subscribers (<[user_id := set_status s r]> (subscribers w))
            (with_faults (tail (sqlite_faults w)) w))
       | None => (Ok false, with_faults (tail (sqlite_faults w)) w)
       end.
Proof.
  unfold db.update_subscriber_status, bind.
  destruct (negb _); [reflexivity|]. rewrite get_connection_eq.
  destruct (default false _); reflexivity.
Qed.

Lemma update_subscription_dates_eq user_id sd ed ty w :
  db.update_subscription_dates user_id sd ed (Some ty) w =
  if negb (db.member ty db._ALLOWED_SUBSCRIPTION_TYPES) then (Ok false, w)
  else if default false (head (sqlite_faults w))
  then (Ok false, with_faults (tail (sqlite_faults w)) w)
  else match subscribers w !! user_id with
       | Some r =>
         (Ok true,
          with_subscribers (<[user_id := set_dates sd ed ty r]> (subscribers w))
            (with_faults (tail (sqlite_faults w)) w))
       | None => (Ok false, with_faults (tail (sqlite_faults w)) w)
       end.
Proof.
  unfold db.update_subscription_dates, bind.
  destruct (negb _); [reflexivity|]. rewrite get_connection_eq.
  destruct (default false _); reflexivity.
Qed.

Lemma create_subscriber_eq user_id name w :
  db.create_subscriber user_id name w =
  if default false (head (sqlite_faults w))
  then (Ok false, with_faults (tail (sqlite_faults w)) w)
  else match subscribers w !! user_id with
       | Some _ => (Ok false, with_faults (tail (sqlite_faults w)) w)
       | None =>
         (Ok true,
          with_subscribers (<[user_id := fresh_row name]> (subscribers w))
            (with_faults (tail (sqlite_faults w)) w))
       end.
Proof.
  unfold db.create_subscriber, bind. rewrite get_connection_eq.
  destruct (default false _); reflexivity.
Qed.

Lemma delete_subscriber_eq user_id w :
  db.delete_subscriber user_id w =
  if default false (head (sqlite_faults w))
  then (Ok false, with_faults (tail (sqlite_faults w)) w)
  else match subscribers w !! user_id with
       | Some _ =>
         (Ok true,
          with_subscribers (delete user_id (subscribers w))
            (with_faults (tail (sqlite_faults w)) w))
       | None => (Ok false, with_faults (tail (sqlite_faults w)) w)
       end.
Proof.
  unfold db.delete_subscriber, bind. rewrite get_connection_eq.
  destruct (default false _); reflexivity.
Qed.

Lemma get_subscriber_eq user_id w :
  db.get_subscriber user_id w =
  (if default false (head (sqlite_faults w)) then Ok None
   else Ok (pair user_id <$> subscribers w !! user_id),
   with_faults (tail (sqlite_faults w)) w).
Proof.
  unfold db.get_subscriber, bind. rewrite get_connection_eq.
  destruct (default false _); reflexivity.
Qed.

Ltac db_cases :=
  repeat match goal with
         | |- context [if ?b then _ else _] => destruct b
         end.

Lemma healthy_head_tail w :
  healthy w → default false (head (tail (sqlite_faults w))) = false.
Proof. intros Hw. exact (healthy_head _ (healthy_tail _ Hw)). Qed.

(** X1: on a healthy database, creating a subscriber whose key is a signed
    64-bit integer and is free returns True; reading the key back gives the
    new row, pending, with the given username and neither dates nor plan;
    every other key is as before. *)
Theorem create_then_get user_id name w :
  sqlite_integer user_id →
  healthy w →
  subscribers w !! user_id = None →
  let w1 := (db.create_subscriber user_id name w).2 in
  (db.create_subscriber user_id name w).1 = Ok true ∧
  (db.get_subscriber user_id w1).1 =
    Ok (Some (user_id, mkRow (Some name) None None "pending" None)) ∧
  ∀ v, v ≠ user_id → subscribers w1 !! v = subscribers w !! v.
Proof.
  intros _ Hw Hnone. cbv zeta. rewrite create_subscriber_eq.
  rewrite (healthy_head _ Hw), Hnone. cbn [fst snd].
  split; [reflexivity|]. split.
  - rewrite get_subscriber_eq. cbn [fst sqlite_faults subscribers with_subscribers with_faults].
    rewrite (healthy_head_tail _ Hw), lookup_insert_eq. reflexivity.
  - intros v Hv. cbn [subscribers with_subscribers with_faults].
    by rewrite lookup_insert_ne.
Qed.

(** X2: creating a subscriber whose key is taken returns False and leaves the
    table as it is, whatever the database does: the stored row is never
    overwritten. *)
Theorem create_existing_is_rejected user_id name w r :
  subscribers w !! user_id = Some r →
  (db.create_subscriber user_id name w).1 = Ok false ∧
  subscribers (db.create_subscriber user_id name w).2 = subscribers w.
Proof.
  intros Hr. rewrite create_subscriber_eq, Hr.
  destruct (default false _); auto.
Qed.

(** X3: on a healthy database, deleting a subscriber whose key is a signed
    64-bit integer returns whether the row existed; afterwards the key reads
    as absent, a status update on it returns False, and every other key is as
    before. *)
Theorem delete_then_get user_id s w :
  sqlite_integer user_id →
  healthy w →
  let w1 := (db.delete_subscriber user_id w).2 in
  (db.delete_subscriber user_id w).1 = Ok (bool_decide (is_Some (subscribers w !! user_id))) ∧
  (db.get_subscriber user_id w1).1 = Ok None ∧
  (db.update_subscriber_status user_id s w1).1 = Ok false ∧
  ∀ v, v ≠ user_id → subscribers w1 !! v = subscribers w !! v.
Proof.
  intros _ Hw. cbv zeta. rewrite delete_subscriber_eq, (healthy_head _ Hw).
  pose proof (healthy_head_tail _ Hw) as Hh.
  destruct (subscribers w !! user_id) as [r|] eqn:E; cbn [fst snd].
  - rewrite bool_decide_eq_true_2 by eauto. split; [reflexivity|].
    rewrite get_subscriber_eq, update_subscriber_status_eq. cbn [fst].
    cbn [sqlite_faults with_subscribers subscribers with_faults] in *. rewrite Hh.
    rewrite lookup_delete_eq. repeat split.
    + by destruct (negb _).
    + intros v Hv. by rewrite lookup_delete_ne.
  - rewrite bool_decide_eq_false_2 by (intros [? ?]; discriminate). split; [reflexivity|].
    rewrite get_subscriber_eq, update_subscriber_status_eq. cbn [fst].
    cbn [sqlite_faults with_subscribers subscribers with_faults] in *. rewrite Hh, E.
    repeat split. by destruct (negb _).
Qed.

(** X4: a subscription type other than monthly and lifetime, Python's None
    included, makes the dates update return False before any connection is
    opened: the world is as before. *)
Theorem update_subscription_dates_rejects_unknown user_id sd ed ty w :
  ty ≠ Some "monthly" → ty ≠ Some "lifetime" →
  db.update_subscription_dates user_id sd ed ty w = (Ok false, w).
Proof.
  intros H1 H2. unfold db.update_subscription_dates.
  destruct ty as [ty|]; [|reflexivity].
  destruct (db.member ty db._ALLOWED_SUBSCRIPTION_TYPES) eqn:E; [|reflexivity].
  apply member_types in E as [-> | ->]; congruence.
Qed.

(** X5: absence is an answer, not an error.  For a key that is a signed
    64-bit integer and is not in the table, whatever the database does,
    reading gives None, both updates and the deletion return False, and the
    table is as before. *)
Theorem missing_key_is_a_normal_result user_id s sd ed ty w :
  sqlite_integer user_id →
  subscribers w !! user_id = None →
  (db.get_subscriber user_id w).1 = Ok None ∧
  ((db.update_subscriber_status user_id s w).1 = Ok false ∧
   subscribers (db.update_subscriber_status user_id s w).2 = subscribers w) ∧
  ((db.update_subscription_dates user_id sd ed ty w).1 = Ok false ∧
   subscribers (db.update_subscription_dates user_id sd ed ty w).2 = subscribers w) ∧
  ((db.delete_subscriber user_id w).1 = Ok false ∧
   subscribers (db.delete_subscriber user_id w).2 = subscribers w).
Proof.
  intros _ Hnone. repeat split.
  - rewrite get_subscriber_eq, Hnone. by destruct (default false _).
  - rewrite update_subscriber_status_eq, Hnone.
    by db_cases.
  - rewrite update_subscriber_status_eq, Hnone.
    by db_cases.
  - destruct ty as [ty|]; [|reflexivity].
    rewrite update_subscription_dates_eq, Hnone.
    by db_cases.
  - destruct ty as [ty|]; [|reflexivity].
    rewrite update_subscription_dates_eq, Hnone.
    by db_cases.
  - rewrite delete_subscriber_eq, Hnone. by destruct (default false _).
  - rewrite delete_subscriber_eq, Hnone. by destruct (default false _).
Qed.

(** X6: when the connection raises [sqlite3.Error], every operation of the
    store swallows it: creation, both updates and deletion return False,
    reading returns None, the query returns the empty list, and the table is
    as before. *)
Theorem failing_connection_changes_nothing user_id name s sd ed ty today w :
  (db._get_connection w).1 = Ok true →
  (db.create_subscriber user_id name w).1 = Ok false ∧
  (db.get_subscriber user_id w).1 = Ok None ∧
  (db.update_subscriber_status user_id s w).1 = Ok false ∧
  (db.update_subscription_dates user_id sd ed ty w).1 = Ok false ∧
  (db.delete_subscriber user_id w).1 = Ok false ∧
  (db.list_expired_subscriptions today w).1 = Ok [] ∧
  subscribers (db.create_subscriber user_id name w).2 = subscribers w ∧
  subscribers (db.update_subscriber_status user_id s w).2 = subscribers w ∧
  subscribers (db.update_subscription_dates user_id sd ed ty w).2 = subscribers w ∧
  subscribers (db.delete_subscriber user_id w).2 = subscribers w.
Proof.
  rewrite get_connection_eq. cbn [fst]. intros [= Hc].
  rewrite create_subscriber_eq, get_subscriber_eq, update_subscriber_status_eq,
    delete_subscriber_eq, Hc.
  assert (Hd : (db.update_subscription_dates user_id sd ed ty w).1 = Ok false ∧
               subscribers (db.update_subscription_dates user_id sd ed ty w).2
               = subscribers w).
  { destruct ty as [ty|]; [|auto].
    rewrite update_subscription_dates_eq, Hc. by destruct (negb _). }
  destruct Hd as [Hd1 Hd2].
  assert (Hl : (db.list_expired_subscriptions today w).1 = Ok []).
  { unfold db.list_expired_subscriptions, bind. rewrite get_connection_eq, Hc. reflexivity. }
  repeat split; auto; by destruct (negb _).
Qed.

(** X7: a status update never creates or removes a row and changes no column
    but the status: whatever the status asked for and whatever the database
    does, the keys are the same and every row keeps its username, its dates
    and its plan. *)
Theorem update_subscriber_status_only_status user_id s w v :
  match subscribers (db.update_subscriber_status user_id s w).2 !! v,
        subscribers w !! v with
  | Some r', Some r => same_but_status r r' ∧ (v ≠ user_id → r' = r)
  | None, None => True
  | _, _ => False
  end.
Proof.
  rewrite update_subscriber_status_eq.
  assert (Hsame : match subscribers w !! v, subscribers w !! v with
                  | Some r', Some r => same_but_status r r' ∧ (v ≠ user_id → r' = r)
                  | None, None => True
                  | _, _ => False
                  end).
  { destruct (subscribers w !! v); [|exact I]. by repeat split. }
  destruct (negb _); [exact Hsame|].
  destruct (default false _); [exact Hsame|].
  destruct (subscribers w !! user_id) as [r|] eqn:E; [|exact Hsame].
  cbn [snd subscribers with_subscribers].
  destruct (decide (v = user_id)) as [->|Hne].
  - rewrite lookup_insert_eq, E. split; [by repeat split | congruence].
  - rewrite lookup_insert_ne by done. exact Hsame.
Qed.

Lemma string_drop_app_length p s : db.string_drop (String.length p) (p ++ s) = s.
Proof. induction p as [|c p IH]; [reflexivity | exact IH]. Qed.

Lemma prefix_app p s : String.prefix p (p ++ s) = true.
Proof.
  induction p as [|c p IH]; [by destruct s|].
  change (String.append (String c p) s) with (String c (String.append p s)).
  cbn [String.prefix].
  destruct (Ascii.ascii_dec c c); [exact IH | congruence].
Qed.

(** X8: normalising a [sqlite:///] URI gives back the path that follows the
    scheme, for every path. *)
Theorem normalize_sqlite_uri_strips_scheme path :
  db._normalize_sqlite_uri ("sqlite:///" ++ path) = path.
Proof.
  unfold db._normalize_sqlite_uri. rewrite prefix_app.
  apply (string_drop_app_length "sqlite:///").
Qed.

(** ** The sweeper and its schedule *)

Lemma notify_attempts_outcome user_id retries todo w :
  ∃ b pre w',
    scheduler.notify_attempts user_id retries todo w = (Ok b, w') ∧
    trace w' =
      trace w ++ pre ++
      (if b : bool then [SendMessage user_id SubscriptionExpired None] else []) ∧
    Forall (λ e, delivered e = false) pre.
Proof.
  revert w. induction todo as [|todo IH]; intros w.
  - exists false, [], w. cbn. rewrite app_nil_r. auto.
  - cbn [scheduler.notify_attempts]. unfold bind, catch, send_message, telegram.
    destruct (transport w) as [|[e|] rest]; cbn [fst snd].
    + exists true, []. eexists. split; [reflexivity|]. auto.
    + assert (Hstop : ∃ b pre w',
                (Ok false : result bool,
                 log (SendMessage user_id SubscriptionExpired (Some e))
                   (with_transport rest w)) = (Ok b, w') ∧
                trace w' =
                  trace w ++ pre ++
                  (if b : bool then [SendMessage user_id SubscriptionExpired None] else []) ∧
                Forall (λ e, delivered e = false) pre).
      { exists false, [SendMessage user_id SubscriptionExpired (Some e)]. eexists.
        split; [reflexivity|]. split; [reflexivity|]. by repeat constructor. }
      assert (Hgo : ∀ w1 evs,
                trace w1 = trace w ++ evs → Forall (λ e, delivered e = false) evs →
                ∃ b pre w',
                  scheduler.notify_attempts user_id retries todo w1 = (Ok b, w') ∧
                  trace w' =
                    trace w ++ pre ++
                    (if b : bool then [SendMessage user_id SubscriptionExpired None] else []) ∧
                  Forall (λ e, delivered e = false) pre).
      { intros w1 evs Ht Hq. destruct (IH w1) as (b & pre & w' & -> & Htr & Hpre).
        exists b, (evs ++ pre), w'. split; [reflexivity|]. split.
        - rewrite Htr, Ht, <- !app_assoc. reflexivity.
        - by apply Forall_app. }
      destruct e; cbn [ret]; try exact Hstop.
      * unfold sleep. eapply Hgo.
        -- unfold log. cbn [trace with_transport]. rewrite <- app_assoc. reflexivity.
        -- by repeat constructor.
      * destruct (scheduler.is_permanent message); [exact Hstop|].
        destruct (_ <? _); unfold sleep, ret; eapply Hgo.
        -- unfold log. cbn [trace with_transport]. rewrite <- app_assoc. reflexivity.
        -- by repeat constructor.
        -- unfold log. cbn [trace with_transport]. reflexivity.
        -- by repeat constructor.
    + exists true, []. eexists. split; [reflexivity|]. auto.
Qed.

(** X9: the expiry notification never raises and never touches the table.
    It returns True exactly when the transport delivered a send, and that
    delivery is the last thing it does: everything before it failed or was a
    wait. *)
Theorem notify_user_outcome user_id retries w :
  ∃ b pre,
    (scheduler.notify_user user_id retries w).1 = Ok b ∧
    trace (scheduler.notify_user user_id retries w).2 =
      trace w ++ pre ++
      (if b : bool then [SendMessage user_id SubscriptionExpired None] else []) ∧
    Forall (λ e, delivered e = false) pre ∧
    subscribers (scheduler.notify_user user_id retries w).2 = subscribers w.
Proof.
  unfold scheduler.notify_user.
  destruct (notify_attempts_outcome user_id retries retries w)
    as (b & pre & w' & Hrun & Htr & Hpre).
  destruct (notify_attempts_frame user_id retries retries w) as (b' & w'' & Hrun' & Hs & _).
  rewrite Hrun in Hrun'. injection Hrun' as <- <-.
  exists b, pre. rewrite Hrun. auto.
Qed.

Lemma notify_attempts_transient user_id retries todo m rest w :
  transport w = Some (TelegramAPIError m) :: rest →
  scheduler.is_permanent m = false →
  scheduler.notify_attempts user_id retries (S todo) w =
  let w1 := log (SendMessage user_id SubscriptionExpired (Some (TelegramAPIError m)))
              (with_transport rest w) in
  scheduler.notify_attempts user_id retries todo
    (if Z.of_nat (retries - S todo) <? Z.of_nat retries - 1
     then log (Sleep (2 * (Z.of_nat (retries - S todo) + 1))) w1 else w1).
Proof.
  intros Ht Hp. cbn [scheduler.notify_attempts]. unfold bind at 1.
  unfold catch, send_message, telegram. rewrite Ht. cbn [fst snd]. rewrite Hp.
  cbv zeta. unfold bind. destruct (_ <? _); reflexivity.
Qed.

(** X10: three failures whose texts are ASCII and are not permanent use up the
    three attempts with a linear backoff: the sweeper waits 2 seconds after
    the first, 4 seconds after the second, does not wait after the last, and
    returns False. *)
Theorem transient_errors_back_off_linearly user_id m1 m2 m3 rest w :
  ascii_only m1 = true → ascii_only m2 = true → ascii_only m3 = true →
  scheduler.is_permanent m1 = false →
  scheduler.is_permanent m2 = false →
  scheduler.is_permanent m3 = false →
  transport w =
    Some (TelegramAPIError m1) :: Some (TelegramAPIError m2) ::
    Some (TelegramAPIError m3) :: rest →
  scheduler.notify_user user_id 3 w =
  (Ok false,
   mkWorld (subscribers w) (sqlite_faults w) rest
     (trace w ++
      [SendMessage user_id SubscriptionExpired (Some (TelegramAPIError m1)); Sleep 2;
       SendMessage user_id SubscriptionExpired (Some (TelegramAPIError m2)); Sleep 4;
       SendMessage user_id SubscriptionExpired (Some (TelegramAPIError m3))])).
Proof.
  intros _ _ _ H1 H2 H3 Ht. unfold scheduler.notify_user.
  rewrite (notify_attempts_transient _ _ _ _ _ _ Ht H1).
  change (Z.of_nat (3 - 3) <? Z.of_nat 3 - 1) with true. cbv zeta iota.
  rewrite (notify_attempts_transient _ _ _ m2 (Some (TelegramAPIError m3) :: rest))
    by (reflexivity || assumption).
  change (Z.of_nat (3 - 2) <? Z.of_nat 3 - 1) with true. cbv zeta iota.
  rewrite (notify_attempts_transient _ _ _ m3 rest) by (reflexivity || assumption).
  change (Z.of_nat (3 - 1) <? Z.of_nat 3 - 1) with false. cbv zeta iota.
  unfold log, with_transport. cbn. rewrite <- !app_assoc. reflexivity.
Qed.

(** X11: what a run of the sweeper does to the table of a healthy database:
    a row the query selects has its status set to expired and nothing else
    changed; every other row is as before; no row appears or disappears. *)
Theorem sweep_table today w u :
  healthy w →
  subscribers (scheduler.check_expired_subscriptions today w).2 !! u =
  (λ r, if db.is_expired today (u, r) then set_status "expired" r else r)
    <$> subscribers w !! u.
Proof.
  intros Hw. destruct (check_expired_subscriptions_run today w Hw) as (w' & -> & Hs & _).
  cbn [snd]. rewrite Hs, lookup_expire_all.
  destruct (decide _) as [Hin|Hout].
  - apply list_elem_of_fmap in Hin as ([u' r] & -> & Hin).
    rewrite merge_sort_Permutation in Hin. cbn [fst].
    unfold selected in Hin. apply list_elem_of_filter in Hin as [Hexp Hin].
    apply elem_of_map_to_list in Hin. rewrite Hin. cbn.
    by destruct (db.is_expired today (u', r)).
  - destruct (subscribers w !! u) as [r|] eqn:E; [|reflexivity]. cbn.
    destruct (db.is_expired today (u, r)) eqn:Hexp; [|reflexivity].
    exfalso. apply Hout. apply (list_elem_of_fmap_2 fst _ (u, r)).
    rewrite merge_sort_Permutation. unfold selected.
    apply list_elem_of_filter. split; [by rewrite Hexp|]. by apply elem_of_map_to_list.
Qed.

(** X12: when the query's connection raises, the sweeper finds nothing: it
    sends nothing, waits for nothing and changes no row. *)
Theorem sweep_with_failing_query today w :
  (db._get_connection w).1 = Ok true →
  scheduler.check_expired_subscriptions today w =
  (Ok (), with_faults (tail (sqlite_faults w)) w).
Proof.
  rewrite get_connection_eq. cbn [fst]. intros [= Hc].
  unfold scheduler.check_expired_subscriptions, db.list_expired_subscriptions, bind.
  rewrite get_connection_eq, Hc. reflexivity.
Qed.

Lemma process_sends subs w :
  (scheduler.process subs w).1 = Ok () ∧
  (sends (trace (scheduler.process subs w).2) ≤ sends (trace w) + 3 * length subs)%nat.
Proof.
  revert w. induction subs as [|sub subs IH]; intros w.
  - cbn. split; [reflexivity | lia].
  - pose proof (notify_attempts_sends sub.1 3 3 w) as Hn.
    destruct (notify_attempts_frame sub.1 3 3 w) as (b & w1 & Hrun & _ & _).
    rewrite Hrun in Hn. cbn [snd] in Hn.
    assert (Hupd : ∃ b' w2, db.update_subscriber_status sub.1 "expired" w1 = (Ok b', w2) ∧
                            trace w2 = trace w1).
    { rewrite update_subscriber_status_eq.
      db_cases; try destruct (subscribers w1 !! sub.1); eauto. }
    destruct Hupd as (b' & w2 & Hupd & Ht).
    assert (Hres : scheduler.process (sub :: subs) w = scheduler.process subs w2).
    { cbn [scheduler.process]. unfold bind at 1. unfold scheduler.notify_user.
      rewrite Hrun. unfold bind at 1. rewrite Hupd. reflexivity. }
    rewrite Hres. destruct (IH w2) as [Hok Hs]. split; [exact Hok|].
    rewrite Ht in Hs. cbn [length]. lia.
Qed.

(** X13: a run of the sweeper never raises, whatever the database and the
    transport do, and it sends at most three messages for each record its
    query returned. *)
Theorem sweep_never_raises today w :
  ∃ l, (db.list_expired_subscriptions today w).1 = Ok l ∧
    (scheduler.check_expired_subscriptions today w).1 = Ok () ∧
    (sends (trace (scheduler.check_expired_subscriptions today w).2)
     ≤ sends (trace w) + 3 * length l)%nat.
Proof.
  unfold scheduler.check_expired_subscriptions, bind.
  assert (Hq : ∃ l w1, db.list_expired_subscriptions today w = (Ok l, w1) ∧
                       trace w1 = trace w).
  { unfold db.list_expired_subscriptions, bind. rewrite get_connection_eq.
    destruct (default false _); eauto. }
  destruct Hq as (l & w1 & -> & Ht). exists l. split; [reflexivity|].
  destruct (process_sends l w1) as [Hok Hs]. rewrite Ht in Hs. auto.
Qed.

(** X14: the schedule.  At any time of a day before the last day of the
    calendar, the next run is at 12:00 of today or of tomorrow, strictly after
    now and at most 24 hours away; at 12:00 sharp it is tomorrow's. *)
Theorem next_run_is_the_next_noon (now : scheduler.datetime) :
  date_min ≤ now.1 < date_max →
  0 ≤ now.2 < scheduler.microseconds_per_day →
  ∃ next s,
    scheduler.next_run now = Ok next ∧
    scheduler.sleep_microseconds now = Ok s ∧
    next.2 = scheduler.target_time ∧
    (next.1 = now.1 ∨ next.1 = now.1 + 1) ∧
    0 < s ≤ scheduler.microseconds_per_day ∧
    (now.2 = scheduler.target_time → s = scheduler.microseconds_per_day).
Proof.
  destruct now as [d us]. cbn [fst snd]. intros Hd Hus.
  unfold scheduler.sleep_microseconds, scheduler.next_run, date_add,
    scheduler.microseconds_per_day, scheduler.target_time, date_min, date_max,
    timedelta_max_days in *.
  cbn [fst snd]. destruct (Z.leb_spec (12 * 3600 * 1000000) us) as [Hge|Hlt].
  - assert (Hin : (Z.abs 1 <=? 999999999) && (1 <=? d + 1) && (d + 1 <=? 3652059) = true).
    { rewrite !andb_true_iff, !Z.leb_le. lia. }
    rewrite Hin. eexists _, _. repeat split; cbn [fst snd]; try reflexivity; try lia.
  - eexists _, _. repeat split; cbn [fst snd]; try reflexivity; try lia.
Qed.

(** ** The approval engine: frames, missing records, repeated decisions *)

Lemma touches_only_transport user {A} (m : M A) : transport_only m → touches_only user m.
Proof. intros Hm w v _. destruct (Hm w) as [-> _]. reflexivity. Qed.

Lemma touches_only_bind user {A B} (m : M A) (k : A → M B) :
  touches_only user m → (∀ a, touches_only user (k a)) → touches_only user (bind m k).
Proof.
  intros Hm Hk w v Hv. unfold bind. specialize (Hm w v Hv).
  destruct (m w) as [[a|e] w1]; cbn [snd] in *; [|exact Hm].
  rewrite (Hk a w1 v Hv). exact Hm.
Qed.

Lemma touches_only_try_except user {A} (m : M A) (h : exn → M A) :
  touches_only user m → (∀ e, touches_only user (h e)) →
  touches_only user (try_except m h).
Proof.
  intros Hm Hh w v Hv. unfold try_except. specialize (Hm w v Hv).
  destruct (m w) as [[a|e] w1]; cbn [snd] in *; [exact Hm|].
  rewrite (Hh e w1 v Hv). exact Hm.
Qed.

Lemma touches_only_get user : touches_only user (db.get_subscriber user).
Proof. intros w v Hv. rewrite get_subscriber_eq. reflexivity. Qed.

Lemma touches_only_status user s : touches_only user (db.update_subscriber_status user s).
Proof.
  intros w v Hv. rewrite update_subscriber_status_eq.
  db_cases; try reflexivity.
  destruct (subscribers w !! user); [|reflexivity].
  cbn [snd subscribers with_subscribers]. by rewrite lookup_insert_ne.
Qed.

Lemma touches_only_dates user sd ed ty :
  touches_only user (db.update_subscription_dates user sd ed ty).
Proof.
  intros w v Hv. destruct ty as [ty|]; [|reflexivity].
  rewrite update_subscription_dates_eq.
  db_cases; try reflexivity.
  destruct (subscribers w !! user); [|reflexivity].
  cbn [snd subscribers with_subscribers]. by rewrite lookup_insert_ne.
Qed.

Ltac touch :=
  repeat first
    [ apply touches_only_get
    | apply touches_only_status
    | apply touches_only_dates
    | apply touches_only_transport; solve [auto 20 with frame]
    | apply touches_only_bind; [|intros ?]
    | apply touches_only_try_except; [|intros ?]
    | match goal with
      | |- touches_only _ (if ?b then _ else _) => destruct b
      | |- touches_only _ (match ?x with _ => _ end) => destruct x
      end ].

Section approval_more.

Context (ADMIN_ID MONTHLY_DAYS : Z).

(** X15: an admin decision and a receipt submission read and write the row of
    their user only: whatever the database and the transport do, every other
    row is as before. *)
Theorem handlers_touch_one_row caller action target tariff today w v :
  v ≠ target →
  subscribers (handle_admin_action ADMIN_ID MONTHLY_DAYS caller action target today w).2 !! v
  = subscribers w !! v ∧
  subscribers (handle_receipt_photo ADMIN_ID MONTHLY_DAYS target tariff today w).2 !! v
  = subscribers w !! v.
Proof.
  intros Hv. split.
  - assert (H : touches_only target
                  (handle_admin_action ADMIN_ID MONTHLY_DAYS caller action target today)).
    { unfold handle_admin_action. touch. }
    exact (H w v Hv).
  - assert (H : touches_only target
                  (handle_receipt_photo ADMIN_ID MONTHLY_DAYS target tariff today)).
    { unfold handle_receipt_photo. touch. }
    exact (H w v Hv).
Qed.

(** X16: a decision on a user whose identifier is a signed 64-bit integer and
    who has no record changes nothing and sends nothing: the caller is
    answered the not-found alert, and that is the only event. *)
Theorem decision_on_missing_record caller action target today w :
  sqlite_integer target →
  subscribers w !! target = None →
  let w' := (handle_admin_action ADMIN_ID MONTHLY_DAYS caller action target today w).2 in
  subscribers w' = subscribers w ∧
  ∃ o, trace w' = trace w ++ [AnswerCallback caller UserNotFound true o].
Proof.
  intros _ Hnone. cbv zeta. unfold handle_admin_action, bind.
  rewrite get_subscriber_eq, Hnone.
  assert (Hnf : (if default false (head (sqlite_faults w)) then Ok None
                 else Ok (pair target <$> None)) = Ok (None : option Subscriber)).
  { by destruct (default false _). }
  rewrite Hnf. unfold answer, telegram. cbn [transport with_faults].
  destruct (transport w) as [|[e|] rest]; cbn [snd]; (split; [reflexivity | eauto]).
Qed.

Lemma decline_run caller target today w r :
  healthy w →
  subscribers w !! target = Some r →
  let w' := (handle_admin_action ADMIN_ID MONTHLY_DAYS caller decline target today w).2 in
  subscribers w' = <[target := set_status "expired" r]> (subscribers w) ∧ healthy w'.
Proof.
  intros Hw Hr. cbv zeta.
  pose proof (healthy_tail _ Hw) as Hw1.
  pose proof (healthy_tail _ Hw1) as Hw2.
  remember (handle_admin_action ADMIN_ID MONTHLY_DAYS caller decline target today w)
    as res eqn:Hres.
  unfold handle_admin_action in Hres. unfold bind at 1 in Hres.
  rewrite get_subscriber_run in Hres by auto using healthy_head.
  rewrite Hr in Hres. cbn [fmap option_fmap option_map] in Hres.
  rewrite try_except_bind in Hres.
  rewrite (update_subscriber_status_hit target "expired" r) in Hres by auto using healthy_head.
  cbn [negb snd] in Hres. subst res. frame_tail Hs Hf. split.
  - etrans; [exact Hs|]. reflexivity.
  - exact (healthy_faults _ _ Hf Hw2).
Qed.

(** X17: on a healthy database, declining an existing record sets its status
    to expired and changes nothing else in the table, whatever the transport
    does; declining it again, on any day and by any caller, leaves the table
    as the first decline left it. *)
Theorem decline_sets_expired_once caller caller' target today today' w r :
  healthy w →
  subscribers w !! target = Some r →
  let w1 := (handle_admin_action ADMIN_ID MONTHLY_DAYS caller decline target today w).2 in
  let w2 := (handle_admin_action ADMIN_ID MONTHLY_DAYS caller' decline target today' w1).2 in
  subscribers w1 = <[target := set_status "expired" r]> (subscribers w) ∧
  subscribers w2 = subscribers w1.
Proof.
  intros Hw Hr. cbv zeta.
  destruct (decline_run caller target today w r Hw Hr) as [Hs1 Hw1].
  split; [exact Hs1|].
  destruct (decline_run caller' target today' _ (set_status "expired" r) Hw1) as [Hs2 _].
  { rewrite Hs1. apply lookup_insert_eq. }
  rewrite Hs2, Hs1, insert_insert_eq. reflexivity.
Qed.

(** X18: on a healthy database, approving an already approved record again on
    the same day, by any caller, leaves the table as the first approval left
    it. *)
Theorem approve_twice_same_day caller caller' target today w r ty :
  healthy w →
  subscribers w !! target = Some r →
  subscription_type r = Some ty →
  ty = "monthly" ∨ ty = "lifetime" →
  no_overflow today (approval_days MONTHLY_DAYS ty) →
  let w1 := (handle_admin_action ADMIN_ID MONTHLY_DAYS caller approve target today w).2 in
  let w2 := (handle_admin_action ADMIN_ID MONTHLY_DAYS caller' approve target today w1).2 in
  subscribers w2 = subscribers w1.
Proof.
  intros Hw Hr Hty Hplan Hov. cbv zeta.
  destruct (approve_run ADMIN_ID MONTHLY_DAYS caller target today w r ty Hw Hr Hty Hplan Hov)
    as [Hs1 Hw1].
  destruct (approve_run ADMIN_ID MONTHLY_DAYS caller' target today _ _ ty Hw1
              ltac:(rewrite Hs1; apply lookup_insert_eq) eq_refl Hplan Hov) as [Hs2 _].
  rewrite Hs2, Hs1, insert_insert_eq. reflexivity.
Qed.

(** X19: approving a record that has no plan yet, on a healthy database and
    with the date in range: the status becomes active and the dates and the
    plan stay null; with a transport that delivers everything, the user is
    sent the approval, the admin chat gets no confirmation, and the caller is
    answered the error alert. *)
Theorem approve_without_plan caller target today w r :
  healthy w →
  subscribers w !! target = Some r →
  subscription_type r = None →
  no_overflow today MONTHLY_DAYS →
  let w' := (handle_admin_action ADMIN_ID MONTHLY_DAYS caller approve target today w).2 in
  subscribers w' = <[target := set_status "active" r]> (subscribers w) ∧
  (transport w = [] →
   trace w' =
     trace w ++ [SendMessage target PaymentApproved None;
                 AnswerCallback caller (ErrorProcessing approve) true None]).
Proof.
  intros Hw Hr Hty Hov. cbv zeta.
  pose proof (healthy_tail _ Hw) as Hw1.
  remember (handle_admin_action ADMIN_ID MONTHLY_DAYS caller approve target today w)
    as res eqn:Hres.
  unfold handle_admin_action in Hres. unfold bind at 1 in Hres.
  rewrite get_subscriber_run in Hres by auto using healthy_head.
  rewrite Hr in Hres. cbn [fmap option_fmap option_map] in Hres.
  rewrite try_except_bind in Hres.
  rewrite (update_subscriber_status_hit target "active" r) in Hres by auto using healthy_head.
  cbn [negb snd] in Hres. rewrite Hty, try_except_bind in Hres. unfold lift at 1 in Hres.
  rewrite bool_decide_eq_false_2 in Hres by discriminate.
  unfold no_overflow in Hov. rewrite Hov, try_except_bind in Hres.
  change (db.update_subscription_dates target (Some today) (Some (today + MONTHLY_DAYS)) None)
    with (ret (A := bool) false) in Hres.
  unfold ret at 1 in Hres. subst res. split.
  - frame_tail Hs Hf. etrans; [exact Hs|]. reflexivity.
  - intros Ht. destruct w as [m f t tr]. cbn [transport] in Ht. subst t.
    unfold send_admin_confirmation. cbn [snd fst]. rewrite !Hty.
    cbv [try_except bind send_user_subscription_confirmation send_admin_confirmation
         send_message answer telegram lift title ret log with_transport with_subscribers
         with_faults transport trace snd fst].
    rewrite <- app_assoc. reflexivity.
Qed.

End approval_more.

(** ** The receipt submission and the commands *)

Lemma status_on_missing user s w :
  subscribers w !! user = None →
  ∃ w1, db.update_subscriber_status user s w = (Ok false, w1) ∧
    subscribers w1 = subscribers w ∧ transport w1 = transport w ∧ trace w1 = trace w.
Proof.
  intros Hn. rewrite update_subscriber_status_eq, Hn. db_cases; eauto.
Qed.

Lemma dates_on_missing user sd ed ty w :
  subscribers w !! user = None →
  ∃ w1, db.update_subscription_dates user sd ed ty w = (Ok false, w1) ∧
    subscribers w1 = subscribers w ∧ transport w1 = transport w ∧ trace w1 = trace w.
Proof.
  intros Hn. destruct ty as [ty|]; [|exists w; auto].
  rewrite update_subscription_dates_eq, Hn. db_cases; eauto.
Qed.

Section receipts_and_commands.

Context (ADMIN_ID MONTHLY_DAYS : Z).

(** X20: a receipt from a user who has no record, with the date in range:
    both writes return False and the table is as before, whatever the
    database does; the handler goes on all the same and, with a transport
    that delivers everything, tells the user the receipt is received and
    sends the admin the payment request. *)
Theorem receipt_without_record user tariff today w :
  subscribers w !! user = None →
  (tariff = Some "monthly" → no_overflow today MONTHLY_DAYS) →
  let w' := (handle_receipt_photo ADMIN_ID MONTHLY_DAYS user tariff today w).2 in
  subscribers w' = subscribers w ∧
  (transport w = [] →
   trace w' =
     trace w ++ [ClearState user; SendMessage user ReceiptReceived None;
                 SendMessage ADMIN_ID (NewPaymentRequest user) None]).
Proof.
  intros Hnone Hov. cbv zeta.
  destruct (status_on_missing user "pending" w Hnone) as (w1 & H1 & Hs1 & Ht1 & Htr1).
  assert (Hend : ∃ ed, (if bool_decide (tariff = Some "monthly")
                        then bind (lift (date_add today MONTHLY_DAYS)) (λ d, ret (Some d))
                        else ret None) w1 = (Ok ed, w1)).
  { destruct (bool_decide_reflect (tariff = Some "monthly")) as [Heq|_]; [|by eexists].
    specialize (Hov Heq). unfold no_overflow in Hov. unfold bind, lift. rewrite Hov.
    by eexists. }
  destruct Hend as (ed & Hend).
  destruct (dates_on_missing user (Some today) ed (Some (default "monthly" tariff)) w1)
    as (w2 & H2 & Hs2 & Ht2 & Htr2); [by rewrite Hs1|].
  assert (Hres : handle_receipt_photo ADMIN_ID MONTHLY_DAYS user tariff today w =
                 try_except
                   (clear_state user;; send_message user ReceiptReceived;;
                    send_admin_payment_notification ADMIN_ID user;; ret ())
                   (λ _, send_message user ErrorProcessingReceipt) w2).
  { unfold handle_receipt_photo. rewrite try_except_bind, H1, try_except_bind, Hend,
      try_except_bind, H2. reflexivity. }
  rewrite Hres. split.
  - frame_tail Hs Hf. rewrite Hs. congruence.
  - intros Ht. destruct w2 as [m2 f2 t2 tr2]. cbn in Ht2, Htr2. subst t2 tr2.
    rewrite Ht1, Htr1, Ht.
    cbv [try_except bind clear_state send_admin_payment_notification send_message telegram
         ret log with_transport transport trace snd fst].
    rewrite <- !app_assoc. reflexivity.
Qed.

(** X21: a receipt submitted while the conversation data holds no tariff, on
    a healthy database: the row is written with the plan monthly and a null
    end date, and the status pending.  The sweeper's query never selects such
    a row, on whatever day. *)
Theorem receipt_without_tariff user today w r :
  healthy w →
  subscribers w !! user = Some r →
  let w' := (handle_receipt_photo ADMIN_ID MONTHLY_DAYS user None today w).2 in
  let row := mkRow (username r) (Some today) None "pending" (Some "monthly") in
  subscribers w' = <[user := row]> (subscribers w) ∧
  ∀ day status', db.is_expired day (user, set_status status' row) = false.
Proof.
  intros Hw Hr. cbv zeta. split; [|intros day status'; apply andb_false_r].
  pose proof (healthy_tail _ Hw) as Hw1.
  remember (handle_receipt_photo ADMIN_ID MONTHLY_DAYS user None today w) as res eqn:Hres.
  unfold handle_receipt_photo in Hres. rewrite try_except_bind in Hres.
  rewrite (update_subscriber_status_hit user "pending" r) in Hres by auto using healthy_head.
  rewrite try_except_bind in Hres. cbn [bool_decide default] in Hres.
  rewrite bool_decide_eq_false_2 in Hres by discriminate.
  unfold ret at 1 in Hres. rewrite try_except_bind in Hres.
  rewrite (update_subscription_dates_hit user _ _ "monthly" (set_status "pending" r)) in Hres
    by (auto using healthy_head; apply lookup_insert_eq).
  subst res. frame_tail Hs Hf. etrans; [exact Hs|].
  cbn [subscribers with_subscribers with_faults]. rewrite insert_insert_eq. reflexivity.
Qed.

(** X22: a receipt sent as a document whose MIME type starts with image/
    leaves the table exactly as the same receipt sent as a photo does,
    whatever the database and the transport do, and adds no reply of its
    own. *)
Theorem image_document_is_a_photo user mime tariff today c :
  String.prefix "image/" mime = true →
  let c' := (handle_receipt_document ADMIN_ID MONTHLY_DAYS user (Some mime) tariff today c).2 in
  subscribers (backend c') =
    subscribers (handle_receipt_photo ADMIN_ID MONTHLY_DAYS user tariff today (backend c)).2 ∧
  outbox c' = outbox c.
Proof.
  intros Hp. cbv zeta. unfold handle_receipt_document.
  destruct mime as [|ch mime]; [discriminate|]. rewrite Hp.
  unfold on_backend, handle_receipt_photo, try_except.
  match goal with
  | |- context [let '(_, _) := ?body (backend c) in _] =>
    destruct (body (backend c)) as [[a|e] w1] eqn:E
  end; cbn [snd backend outbox]; split; try reflexivity.
  destruct (transport_only_send_message user ErrorProcessingReceipt w1) as [-> _].
  reflexivity.
Qed.

(** X23: a document that is not an image (no MIME type, an empty one, or one
    that does not start with image/) is refused: the table and the trace of
    the world are as before, and the only reply is the invalid-file-type
    message to the user. *)
Theorem other_document_is_refused user mime_type tariff today c :
  (∀ m, mime_type = Some m → String.prefix "image/" m = false) →
  let c' := (handle_receipt_document ADMIN_ID MONTHLY_DAYS user mime_type tariff today c).2 in
  subscribers (backend c') = subscribers (backend c) ∧
  trace (backend c') = trace (backend c) ∧
  ∃ o, outbox c' = outbox c ++ [(user, InvalidFileType, NoKeyboard, o)].
Proof.
  intros Hm. cbv zeta. unfold handle_receipt_document.
  assert (Hc : match mime_type with
               | Some (String ch m) => String.prefix "image/" (String ch m)
               | _ => false
               end = false).
  { destruct mime_type as [[|ch m]|]; auto. }
  rewrite Hc. unfold reply.
  destruct (transport (backend c)) as [|[e|] rest]; cbn [snd backend outbox]; eauto.
Qed.

(** X24: the invitation link.  For a record that carries a plan, the status
    message is built without error, and it contains the link to the channel
    exactly when the stored status is active and the plan is lifetime or the
    end date is null or after today. *)
Theorem invite_link_only_when_active_and_current user r ty today :
  subscription_type r = Some ty →
  ∃ parts,
    format_subscription_message (Some (user, r)) today = Ok (Parts parts) ∧
    (JoinChannelLink ∈ parts ↔
     status r = "active" ∧
     (ty = "lifetime" ∨ match end_date r with Some e => today < e | None => True end)).
Proof.
  intros Hty. unfold format_subscription_message. rewrite Hty.
  destruct (bool_decide_reflect (ty = "lifetime")) as [Hl|Hl].
  - eexists. split; [reflexivity|].
    destruct (bool_decide_reflect (status r = "active")) as [Ha|Ha].
    + rewrite !elem_of_app, !elem_of_cons. tauto.
    + destruct (bool_decide (status r = "pending")), (bool_decide (status r = "expired"));
        rewrite ?elem_of_app, !elem_of_cons, !elem_of_nil; intuition discriminate.
  - destruct (end_date r) as [e|].
    + destruct (Z.ltb_spec 0 (e - today)) as [Hd|Hd].
      * eexists. split; [reflexivity|].
        destruct (bool_decide_reflect (status r = "active")) as [Ha|Ha].
        -- rewrite !elem_of_app, !elem_of_cons. intuition lia.
        -- destruct (bool_decide (status r = "pending")),
             (bool_decide (status r = "expired")), (start_date r);
             rewrite ?elem_of_app, !elem_of_cons, !elem_of_nil; intuition discriminate.
      * eexists. split; [reflexivity|]. cbn [bool_decide].
        rewrite (bool_decide_eq_false_2 ("expired" = "active")) by discriminate.
        rewrite (bool_decide_eq_false_2 ("expired" = "pending")) by discriminate.
        rewrite (bool_decide_eq_true_2 ("expired" = "expired")) by reflexivity.
        destruct (start_date r);
          rewrite ?elem_of_app, !elem_of_cons, !elem_of_nil; intuition (discriminate || lia).
    + eexists. split; [reflexivity|].
      destruct (bool_decide_reflect (status r = "active")) as [Ha|Ha].
      * rewrite !elem_of_app, !elem_of_cons. tauto.
      * destruct (bool_decide (status r = "pending")),
          (bool_decide (status r = "expired")), (start_date r);
          rewrite ?elem_of_app, !elem_of_cons, !elem_of_nil; intuition discriminate.
Qed.

End receipts_and_commands.

Section start_and_status.

Context (ADMIN_ID MONTHLY_DAYS : Z).

Lemma start_run user from_username c :
  healthy (backend c) →
  let c1 := (cmd_start user from_username c).2 in
  subscribers (backend c1) =
    match subscribers (backend c) !! user with
    | Some _ => subscribers (backend c)
    | None => <[user := fresh_row (or_unknown from_username)]> (subscribers (backend c))
    end ∧
  healthy (backend c1) ∧
  ∃ o, outbox c1 = outbox c ++ [(user, Welcome, MainKeyboard, o)].
Proof.
  destruct c as [w ob]. cbn [backend]. intros Hw. cbv zeta.
  pose proof (healthy_tail _ Hw) as Hw1.
  pose proof (healthy_tail _ Hw1) as Hw2.
  remember (cmd_start user from_username (mkChat w ob)) as res eqn:Hres.
  unfold cmd_start in Hres. unfold ubind at 1 in Hres. unfold on_backend at 1 in Hres.
  cbn [backend outbox] in Hres.
  rewrite get_subscriber_run in Hres by auto using healthy_head.
  destruct (subscribers w !! user) as [r|] eqn:E; cbn [fmap option_fmap option_map] in Hres.
  - unfold ubind, uret, on_backend, clear_state, reply, log in Hres.
    cbn [backend outbox transport with_faults with_subscribers subscribers trace sqlite_faults]
      in Hres.
    destruct (transport w) as [|[e|] rest]; subst res;
      cbn [snd backend outbox subscribers with_faults with_transport];
      (split; [reflexivity|]); (split; [exact Hw1|]); eauto.
  - unfold ubind at 1 in Hres. unfold on_backend at 1 in Hres. cbn [backend outbox] in Hres.
    rewrite create_subscriber_eq in Hres.
    cbn [sqlite_faults with_faults subscribers] in Hres.
    rewrite (healthy_head_tail _ Hw), E in Hres.
    unfold ubind, on_backend, clear_state, reply, log in Hres.
    cbn [backend outbox transport with_faults with_subscribers subscribers trace sqlite_faults]
      in Hres.
    destruct (transport w) as [|[e|] rest]; subst res;
      cbn [snd backend outbox subscribers with_faults with_transport];
      (split; [reflexivity|]); (split; [exact Hw2|]); eauto.
Qed.

(** X25: /start registers a user once.  On a healthy database, whatever the
    transport does: a user without a record gets one (pending, the username or
    "Unknown", no dates, no plan), and a user with a record keeps it as it
    is; a second /start, under any username, changes nothing in the table.
    Each /start sends exactly one reply, the welcome message. *)
Theorem start_registers_once user from_username from_username' c :
  healthy (backend c) →
  let c1 := (cmd_start user from_username c).2 in
  let c2 := (cmd_start user from_username' c1).2 in
  subscribers (backend c1) =
    match subscribers (backend c) !! user with
    | Some _ => subscribers (backend c)
    | None => <[user := fresh_row (or_unknown from_username)]> (subscribers (backend c))
    end ∧
  subscribers (backend c2) = subscribers (backend c1) ∧
  ∃ o, outbox c1 = outbox c ++ [(user, Welcome, MainKeyboard, o)].
Proof.
  intros Hw. cbv zeta.
  destruct (start_run user from_username c Hw) as (Hs1 & Hw1 & Ho).
  split; [exact Hs1|]. split; [|exact Ho].
  destruct (start_run user from_username' _ Hw1) as (Hs2 & _ & _).
  rewrite Hs2, Hs1. destruct (subscribers (backend c) !! user) as [r|] eqn:E.
  - by rewrite E.
  - by rewrite lookup_insert_eq.
Qed.

(** X26: /mysubscription right after a first /start.  The record that /start
    creates has no plan, and formatting its status raises [AttributeError]
    before anything is sent: on a healthy database the command raises and the
    user gets no reply to it. *)
Theorem status_right_after_start_raises user from_username today c :
  healthy (backend c) →
  subscribers (backend c) !! user = None →
  let c1 := (cmd_start user from_username c).2 in
  (cmd_mysubscription user today c1).1 = Raise AttributeError ∧
  outbox (cmd_mysubscription user today c1).2 = outbox c1 ∧
  subscribers (backend (cmd_mysubscription user today c1).2) = subscribers (backend c1).
Proof.
  intros Hw Hnone. cbv zeta.
  destruct (start_run user from_username c Hw) as (Hs1 & Hw1 & _).
  rewrite Hnone in Hs1.
  set (c1 := (cmd_start user from_username c).2) in *.
  assert (Hr : subscribers (backend c1) !! user = Some (fresh_row (or_unknown from_username))).
  { rewrite Hs1. apply lookup_insert_eq. }
  unfold cmd_mysubscription. unfold ubind at 1 3 5. unfold on_backend at 1 3 5.
  rewrite get_subscriber_run by auto using healthy_head. rewrite Hr.
  cbn [fmap option_fmap option_map]. unfold ubind, on_backend, lift.
  cbn [format_subscription_message fresh_row subscription_type backend outbox fst snd].
  auto.
Qed.

(** X27: /mysubscription for an active record whose end date is today or
    earlier, with a plan other than lifetime, on a healthy database.  The
    table is not touched (the stored status stays active); the one reply says
    the subscription has expired and to use the button below to renew, shows
    no link to the channel, and carries the refresh button, not the buy
    button, because the keyboard is chosen from the stored status. *)
Theorem lapsed_active_record_is_shown_expired user today c r ty e :
  healthy (backend c) →
  subscribers (backend c) !! user = Some r →
  status r = "active" →
  subscription_type r = Some ty → ty ≠ "lifetime" →
  end_date r = Some e → e ≤ today →
  let c' := (cmd_mysubscription user today c).2 in
  subscribers (backend c') = subscribers (backend c) ∧
  ∃ parts o,
    outbox c' = outbox c ++ [(user, Status (Parts parts), RefreshStatusButton, o)] ∧
    SubscriptionExpiredWarning ∈ parts ∧ RenewLine ∈ parts ∧ JoinChannelLink ∉ parts.
Proof.
  destruct c as [w ob]. cbn [backend outbox]. intros Hw Hr Hst Hty Hl He Hle. cbv zeta.
  assert (Hfmt : ∃ parts,
             format_subscription_message (Some (user, r)) today = Ok (Parts parts) ∧
             SubscriptionExpiredWarning ∈ parts ∧ RenewLine ∈ parts ∧
             JoinChannelLink ∉ parts).
  { unfold format_subscription_message. rewrite Hty, He.
    rewrite (bool_decide_eq_false_2 (ty = "lifetime")) by done.
    destruct (Z.ltb_spec 0 (e - today)) as [Hd|Hd]; [lia|].
    rewrite (bool_decide_eq_false_2 ("expired" = "active")) by discriminate.
    rewrite (bool_decide_eq_false_2 ("expired" = "pending")) by discriminate.
    rewrite (bool_decide_eq_true_2 ("expired" = "expired")) by reflexivity.
    eexists. split; [reflexivity|].
    destruct (start_date r);
      rewrite ?elem_of_app, !elem_of_cons, !elem_of_nil; intuition discriminate. }
  destruct Hfmt as (parts & Hfmt & Hparts).
  remember (cmd_mysubscription user today (mkChat w ob)) as res eqn:Hres.
  unfold cmd_mysubscription in Hres. unfold ubind at 1 in Hres. unfold on_backend at 1 in Hres.
  cbn [backend outbox] in Hres.
  rewrite get_subscriber_run in Hres by auto using healthy_head.
  rewrite Hr in Hres. cbn [fmap option_fmap option_map] in Hres.
  unfold ubind at 1 in Hres. unfold on_backend, lift in Hres. rewrite Hfmt in Hres.
  cbn [backend outbox] in Hres. rewrite Hst in Hres.
  rewrite (bool_decide_eq_false_2 ("active" ∈ ["pending"; "expired"])) in Hres
    by (rewrite !elem_of_cons, elem_of_nil; intuition discriminate).
  unfold reply in Hres. cbn [backend outbox transport with_faults] in Hres.
  destruct (transport w) as [|[ex|] rest]; subst res;
    cbn [snd backend outbox subscribers with_faults with_transport];
    (split; [reflexivity|]); eexists _, _; (split; [reflexivity | exact Hparts]).
Qed.

End start_and_status.

(** ** Instances of the further properties *)

Lemma create_then_get_witness :
  let w1 := (db.create_subscriber 5 "eve" pending_world).2 in
  (db.create_subscriber 5 "eve" pending_world).1 = Ok true ∧
  (db.get_subscriber 5 w1).1 = Ok (Some (5, mkRow (Some "eve") None None "pending" None)) ∧
  ∀ v, v ≠ 5 → subscribers w1 !! v = subscribers pending_world !! v.
Proof.
  apply (create_then_get 5 "eve" pending_world);
    [vm_compute; split; congruence | constructor | reflexivity].
Defined.

Lemma create_existing_is_rejected_witness :
  (db.create_subscriber 42 "mallory" pending_world).1 = Ok false ∧
  subscribers (db.create_subscriber 42 "mallory" pending_world).2 = subscribers pending_world.
Proof. apply (create_existing_is_rejected 42 "mallory" pending_world row_monthly). reflexivity. Defined.

Lemma delete_then_get_witness :
  let w1 := (db.delete_subscriber 42 pending_world).2 in
  (db.delete_subscriber 42 pending_world).1
    = Ok (bool_decide (is_Some (subscribers pending_world !! 42))) ∧
  (db.get_subscriber 42 w1).1 = Ok None ∧
  (db.update_subscriber_status 42 "active" w1).1 = Ok false ∧
  ∀ v, v ≠ 42 → subscribers w1 !! v = subscribers pending_world !! v.
Proof.
  apply (delete_then_get 42 "active" pending_world);
    [vm_compute; split; congruence | constructor].
Defined.

Lemma update_subscription_dates_rejects_unknown_witness :
  db.update_subscription_dates 42 (Some 100) (Some 107) (Some "weekly") pending_world
  = (Ok false, pending_world).
Proof.
  apply (update_subscription_dates_rejects_unknown 42 (Some 100) (Some 107) (Some "weekly")
           pending_world); discriminate.
Defined.

Lemma missing_key_is_a_normal_result_witness :
  (db.get_subscriber 5 pending_world).1 = Ok None ∧
  ((db.update_subscriber_status 5 "active" pending_world).1 = Ok false ∧
   subscribers (db.update_subscriber_status 5 "active" pending_world).2
   = subscribers pending_world) ∧
  ((db.update_subscription_dates 5 (Some 1) None (Some "monthly") pending_world).1 = Ok false ∧
   subscribers (db.update_subscription_dates 5 (Some 1) None (Some "monthly") pending_world).2
   = subscribers pending_world) ∧
  ((db.delete_subscriber 5 pending_world).1 = Ok false ∧
   subscribers (db.delete_subscriber 5 pending_world).2 = subscribers pending_world).
Proof.
  apply (missing_key_is_a_normal_result 5 "active" (Some 1) None (Some "monthly") pending_world);
    [vm_compute; split; congruence | reflexivity].
Defined.

Lemma failing_connection_changes_nothing_witness :
  let w := with_faults [true] pending_world in
  (db.create_subscriber 5 "eve" w).1 = Ok false ∧
  (db.get_subscriber 42 w).1 = Ok None ∧
  (db.update_subscriber_status 42 "active" w).1 = Ok false ∧
  (db.update_subscription_dates 42 (Some 1) None (Some "monthly") w).1 = Ok false ∧
  (db.delete_subscriber 42 w).1 = Ok false ∧
  (db.list_expired_subscriptions 100 w).1 = Ok [] ∧
  subscribers (db.create_subscriber 5 "eve" w).2 = subscribers w ∧
  subscribers (db.update_subscriber_status 42 "active" w).2 = subscribers w ∧
  subscribers (db.update_subscription_dates 42 (Some 1) None (Some "monthly") w).2
  = subscribers w ∧
  subscribers (db.delete_subscriber 42 w).2 = subscribers w.
Proof.
  cbv zeta. pose proof (failing_connection_changes_nothing 42 "eve" "active" (Some 1) None
                          (Some "monthly") 100 (with_faults [true] pending_world) eq_refl) as H.
  pose proof (failing_connection_changes_nothing 5 "eve" "active" (Some 1) None
                (Some "monthly") 100 (with_faults [true] pending_world) eq_refl) as H5.
  repeat split; try apply H; apply H5.
Defined.

Lemma transient_errors_back_off_linearly_witness :
  scheduler.notify_user 8 3 flaky_world =
  (Ok false,
   mkWorld (subscribers flaky_world) (sqlite_faults flaky_world) [None]
     (trace flaky_world ++
      [SendMessage 8 SubscriptionExpired (Some (TelegramAPIError "Bad Gateway")); Sleep 2;
       SendMessage 8 SubscriptionExpired (Some (TelegramAPIError "Bad Gateway")); Sleep 4;
       SendMessage 8 SubscriptionExpired (Some (TelegramAPIError "Bad Gateway"))])).
Proof.
  apply (transient_errors_back_off_linearly 8 "Bad Gateway" "Bad Gateway" "Bad Gateway"
           [None] flaky_world); reflexivity.
Defined.

Lemma sweep_table_witness :
  subscribers (scheduler.check_expired_subscriptions 100 blocked_world).2 !! 9 =
  (λ r, if db.is_expired 100 (9, r) then set_status "expired" r else r)
    <$> subscribers blocked_world !! 9.
Proof. apply (sweep_table 100 blocked_world 9). constructor. Defined.

Lemma sweep_with_failing_query_witness :
  scheduler.check_expired_subscriptions 100 (with_faults [true] due_world) =
  (Ok (), with_faults (tail (sqlite_faults (with_faults [true] due_world)))
            (with_faults [true] due_world)).
Proof. apply (sweep_with_failing_query 100 (with_faults [true] due_world)). reflexivity. Defined.

Lemma next_run_is_the_next_noon_witness :
  ∃ next s,
    scheduler.next_run (739000, 43200000000) = Ok next ∧
    scheduler.sleep_microseconds (739000, 43200000000) = Ok s ∧
    next.2 = scheduler.target_time ∧
    (next.1 = (739000, 43200000000).1 ∨ next.1 = (739000, 43200000000).1 + 1) ∧
    0 < s ≤ scheduler.microseconds_per_day ∧
    ((739000, 43200000000).2 = scheduler.target_time → s = scheduler.microseconds_per_day).
Proof.
  apply (next_run_is_the_next_noon (739000, 43200000000)); vm_compute; split; congruence.
Defined.

Lemma handlers_touch_one_row_witness :
  subscribers (handle_admin_action 1 30 1 approve 42 105 pending_world).2 !! 7
  = subscribers pending_world !! 7 ∧
  subscribers (handle_receipt_photo 1 30 42 (Some "monthly") 105 pending_world).2 !! 7
  = subscribers pending_world !! 7.
Proof.
  apply (handlers_touch_one_row 1 30 1 approve 42 (Some "monthly") 105 pending_world 7).
  discriminate.
Defined.

Lemma decision_on_missing_record_witness :
  let w' := (handle_admin_action 1 30 1 approve 5 105 pending_world).2 in
  subscribers w' = subscribers pending_world ∧
  ∃ o, trace w' = trace pending_world ++ [AnswerCallback 1 UserNotFound true o].
Proof.
  apply (decision_on_missing_record 1 30 1 approve 5 105 pending_world);
    [vm_compute; split; congruence | reflexivity].
Defined.

Lemma decline_sets_expired_once_witness :
  let w1 := (handle_admin_action 1 30 1 decline 42 105 pending_world).2 in
  let w2 := (handle_admin_action 1 30 1 decline 42 106 w1).2 in
  subscribers w1 = <[42 := set_status "expired" row_monthly]> (subscribers pending_world) ∧
  subscribers w2 = subscribers w1.
Proof.
  apply (decline_sets_expired_once 1 30 1 1 42 105 106 pending_world row_monthly);
    [constructor | reflexivity].
Defined.

Lemma approve_twice_same_day_witness :
  let w1 := (handle_admin_action 1 30 1 approve 42 105 pending_world).2 in
  let w2 := (handle_admin_action 1 30 1 approve 42 105 w1).2 in
  subscribers w2 = subscribers w1.
Proof.
  apply (approve_twice_same_day 1 30 1 1 42 105 pending_world row_monthly "monthly");
    [constructor | reflexivity | reflexivity | left; reflexivity | reflexivity].
Defined.

Lemma approve_without_plan_witness :
  let w' := (handle_admin_action 1 30 1 approve 5 105 started_world).2 in
  subscribers w' = <[5 := set_status "active" (fresh_row "eve")]> (subscribers started_world) ∧
  trace w' =
    trace started_world ++ [SendMessage 5 PaymentApproved None;
                            AnswerCallback 1 (ErrorProcessing approve) true None].
Proof.
  cbv zeta.
  destruct (approve_without_plan 1 30 1 5 105 started_world (fresh_row "eve")) as [H1 H2];
    [constructor | reflexivity | reflexivity | reflexivity |].
  split; [exact H1 | exact (H2 eq_refl)].
Defined.

Lemma receipt_without_record_witness :
  let w' := (handle_receipt_photo 1 30 5 (Some "monthly") 100 pending_world).2 in
  subscribers w' = subscribers pending_world ∧
  trace w' =
    trace pending_world ++ [ClearState 5; SendMessage 5 ReceiptReceived None;
                            SendMessage 1 (NewPaymentRequest 5) None].
Proof.
  cbv zeta.
  destruct (receipt_without_record 1 30 5 (Some "monthly") 100 pending_world) as [H1 H2];
    [reflexivity | intros _; reflexivity |].
  split; [exact H1 | exact (H2 eq_refl)].
Defined.

Lemma receipt_without_tariff_witness :
  let w' := (handle_receipt_photo 1 30 42 None 100 pending_world).2 in
  let row := mkRow (username row_monthly) (Some 100) None "pending" (Some "monthly") in
  subscribers w' = <[42 := row]> (subscribers pending_world) ∧
  ∀ day status', db.is_expired day (42, set_status status' row) = false.
Proof.
  apply (receipt_without_tariff 1 30 42 100 pending_world row_monthly);
    [constructor | reflexivity].
Defined.

Lemma image_document_is_a_photo_witness :
  let c := mkChat pending_world [] in
  let c' := (handle_receipt_document 1 30 42 (Some "image/png") (Some "monthly") 100 c).2 in
  subscribers (backend c') =
    subscribers (handle_receipt_photo 1 30 42 (Some "monthly") 100 (backend c)).2 ∧
  outbox c' = outbox c.
Proof.
  apply (image_document_is_a_photo 1 30 42 "image/png" (Some "monthly") 100
           (mkChat pending_world [])).
  reflexivity.
Defined.

Lemma other_document_is_refused_witness :
  let c := mkChat pending_world [] in
  let c' := (handle_receipt_document 1 30 42 (Some "application/pdf") (Some "monthly") 100 c).2 in
  subscribers (backend c') = subscribers (backend c) ∧
  trace (backend c') = trace (backend c) ∧
  ∃ o, outbox c' = outbox c ++ [(42, InvalidFileType, NoKeyboard, o)].
Proof.
  apply (other_document_is_refused 1 30 42 (Some "application/pdf") (Some "monthly") 100
           (mkChat pending_world [])).
  intros m [= <-]. reflexivity.
Defined.

Lemma invite_link_only_when_active_and_current_witness :
  ∃ parts,
    format_subscription_message (Some (7, row_due 99)) 100 = Ok (Parts parts) ∧
    (JoinChannelLink ∈ parts ↔
     status (row_due 99) = "active" ∧
     ("monthly" = "lifetime" ∨
      match end_date (row_due 99) with Some e => 100 < e | None => True end)).
Proof. apply (invite_link_only_when_active_and_current 7 (row_due 99) "monthly" 100). reflexivity. Defined.

Lemma start_registers_once_witness :
  let c := mkChat pending_world [] in
  let c1 := (cmd_start 5 (Some "eve") c).2 in
  let c2 := (cmd_start 5 None c1).2 in
  subscribers (backend c1) =
    match subscribers (backend c) !! 5 with
    | Some _ => subscribers (backend c)
    | None => <[5 := fresh_row (or_unknown (Some "eve"))]> (subscribers (backend c))
    end ∧
  subscribers (backend c2) = subscribers (backend c1) ∧
  ∃ o, outbox c1 = outbox c ++ [(5, Welcome, MainKeyboard, o)].
Proof. apply (start_registers_once 5 (Some "eve") None (mkChat pending_world [])). constructor. Defined.

Lemma status_right_after_start_raises_witness :
  let c1 := (cmd_start 5 (Some "eve") (mkChat pending_world [])).2 in
  (cmd_mysubscription 5 100 c1).1 = Raise AttributeError ∧
  outbox (cmd_mysubscription 5 100 c1).2 = outbox c1 ∧
  subscribers (backend (cmd_mysubscription 5 100 c1).2) = subscribers (backend c1).
Proof.
  apply (status_right_after_start_raises 5 (Some "eve") 100 (mkChat pending_world []));
    [constructor | reflexivity].
Defined.

Lemma lapsed_active_record_is_shown_expired_witness :
  let c := mkChat due_world [] in
  let c' := (cmd_mysubscription 7 100 c).2 in
  subscribers (backend c') = subscribers (backend c) ∧
  ∃ parts o,
    outbox c' = outbox c ++ [(7, Status (Parts parts), RefreshStatusButton, o)] ∧
    SubscriptionExpiredWarning ∈ parts ∧ RenewLine ∈ parts ∧ JoinChannelLink ∉ parts.
Proof.
  apply (lapsed_active_record_is_shown_expired 7 100 (mkChat due_world []) (row_due 99)
           "monthly" 99); try reflexivity; try discriminate.
  constructor.
Defined.
